(** * create_feature_classes_system_integration.py

    A shallow embedding of the NWFWMD script that creates the empty point
    feature classes mirroring the district's business systems, and the
    properties of the sequence of geoprocessing calls it issues.

    The script is straight-line Python over the [arcpy] site package.  Its
    functions are embedded as finite interaction trees: a node is one call
    into [arcpy], its continuation receives the platform's response (the
    call returned, or it raised), and a leaf is a returned value or a
    raised exception.  The geodatabase itself is not part of the script; a
    run is taken against an arbitrary platform. *)

From Stdlib Require Import List String Ascii ZArith Bool Lia DecimalString.
Import ListNotations.

Local Open Scope string_scope.
Local Open Scope list_scope.

(* ===================================================================== *)
(** ** Python values, string literals and [str.format] *)
(* ===================================================================== *)

(** The values that occur in a field specification: [str], [int], [bool]. *)
Inductive pyval : Type :=
| PStr (s : string)
| PInt (n : Z)
| PBool (b : bool).

Coercion PStr : string >-> pyval.
Coercion PInt : Z >-> pyval.
Coercion PBool : bool >-> pyval.

(** A Python tuple; the script indexes it by position. *)
Definition tuple : Type := list pyval.

(** The tuple display [(a, b, c, d, e, f, g, h, i)]. *)
Definition tuple9 (a b c d e f g h i : pyval) : tuple :=
  [a; b; c; d; e; f; g; h; i].

(** [str(v)], as [str.format] renders a replacement field. *)
Definition py_str (v : pyval) : string :=
  match v with
  | PStr s => s
  | PInt n => NilZero.string_of_int (Z.to_int n)
  | PBool true => "True"
  | PBool false => "False"
  end.

Definition TAB : ascii := ascii_of_nat 9.
Definition LF : ascii := ascii_of_nat 10.
Definition BACKSLASH : ascii := ascii_of_nat 92.

(** A non-raw string literal: the escapes [\n], [\t] and [\\] denote one
    character each; any other backslash stands for itself. *)
Fixpoint lit (s : string) : string :=
  match s with
  | EmptyString => EmptyString
  | String c rest =>
      if Ascii.eqb c BACKSLASH then
        match rest with
        | String d rest' =>
            if Ascii.eqb d "n" then String LF (lit rest')
            else if Ascii.eqb d "t" then String TAB (lit rest')
            else if Ascii.eqb d BACKSLASH then String BACKSLASH (lit rest')
            else String c (lit rest)
        | EmptyString => String c EmptyString
        end
      else String c (lit rest)
  end.

(** [template.format(kwarg = value)] for templates whose only braces are
    replacement fields [{kwarg}]: every occurrence of the field is replaced
    by [str(value)].  [skip] counts the characters of a field still to be
    dropped after its replacement was emitted. *)
Fixpoint format_from (field value : string) (skip : nat) (template : string)
  : string :=
  match template with
  | EmptyString => EmptyString
  | String c rest =>
      match skip with
      | S k => format_from field value k rest
      | O =>
          if String.prefix field template
          then value ++ format_from field value (String.length field - 1) rest
          else String c (format_from field value 0 rest)
      end
  end.

Definition format (template kwarg : string) (value : pyval) : string :=
  format_from ("{" ++ kwarg ++ "}") (py_str value) 0 template.

(* ===================================================================== *)
(** ** Exceptions and the calls into arcpy *)
(* ===================================================================== *)

(** A raised exception: its class name and its message. *)
Inductive exn : Type :=
| Exn (class message : string).

Definition IndexError : exn := Exn "IndexError" "tuple index out of range".

(** [arcpy.SpatialReference(factory_code)]. *)
Inductive SpatialReference : Type :=
| arcpy_SpatialReference (factory_code : Z).

(** The arcpy functions the script calls, with the arguments it passes.
    Arguments are named as the script's keyword arguments; [AddIndex] is
    called positionally (in_table, fields, index_name). *)
Inductive call : Type :=
| AddMessage (message : string)
| AddWarning (message : string)
| CreateFeatureclass_management
    (out_path out_name geometry_type : string)
    (spatial_reference : SpatialReference)
| AddField_management
    (in_table : string)
    (field_name field_type field_precision field_scale field_length
     field_alias field_is_nullable field_is_required field_domain : pyval)
| AddIndex_management (in_table fields index_name : string)
| ChangePrivileges_management (in_dataset user View Edit : string).

(** What the platform answers to a call.  The script discards every value
    the calls return, so a return carries none. *)
Inductive response : Type :=
| Returned
| Raised (e : exn).

(** One call as it happened in a run. *)
Definition event : Type := (call * response)%type.

(** [AddMessage] and [AddWarning] write to the geoprocessing log; all
    other calls operate on the geodatabase. *)
Definition is_geodatabase_operation (c : call) : bool :=
  match c with
  | AddMessage _ | AddWarning _ => false
  | _ => true
  end.

Definition is_CreateFeatureclass (c : call) : bool :=
  match c with CreateFeatureclass_management _ _ _ _ => true | _ => false end.


Definition is_AddIndex (c : call) : bool :=
  match c with AddIndex_management _ _ _ => true | _ => false end.

Definition is_ChangePrivileges (c : call) : bool :=
  match c with ChangePrivileges_management _ _ _ _ => true | _ => false end.

(* ===================================================================== *)
(** ** Programs *)
(* ===================================================================== *)

(** A Python computation returning an [A]. *)
Inductive py (A : Type) : Type :=
| Ret (a : A)
| Raise (e : exn)
| Vis (c : call) (k : response -> py A).

Arguments Ret {A} a.
Arguments Raise {A} e.
Arguments Vis {A} c k.

Fixpoint bind {A B : Type} (p : py A) (f : A -> py B) : py B :=
  match p with
  | Ret a => f a
  | Raise e => Raise e
  | Vis c k => Vis c (fun r => bind (k r) f)
  end.

Declare Scope py_scope.
Delimit Scope py_scope with py.
Bind Scope py_scope with py.

Notation "x <- p ;; q" := (bind p (fun x => q))
  (at level 61, p at next level, q at level 200, right associativity)
  : py_scope.
Notation "p ;; q" := (bind p (fun _ => q))
  (at level 61, q at level 200, right associativity) : py_scope.

Local Open Scope py_scope.

(** A call statement [arcpy.f(...)]: an exception raised by the call is
    raised at the statement. *)
Definition arcpy (c : call) : py unit :=
  Vis c (fun r => match r with Returned => Ret tt | Raised e => Raise e end).

(** [t[i]] for a literal index [i >= 0]. *)
Definition getitem (t : tuple) (i : nat) : py pyval :=
  match nth_error t i with
  | Some v => Ret v
  | None => Raise IndexError
  end.

(** [for x in xs: body]. *)
Fixpoint for_each {A : Type} (xs : list A) (body : A -> py unit) : py unit :=
  match xs with
  | [] => Ret tt
  | x :: rest => body x ;; for_each rest body
  end.

(** [try: p  except Exception as e: handler(e)].  The script never uses
    it; it is what error handling would look like. *)
Fixpoint try_except {A : Type} (p : py A) (handler : exn -> py A) : py A :=
  match p with
  | Ret a => Ret a
  | Raise e => handler e
  | Vis c k => Vis c (fun r => try_except (k r) handler)
  end.

(** The calls a program issues when every call returns, and how it ends
    then. *)
Fixpoint script {A : Type} (p : py A) : list call :=
  match p with
  | Vis c k => c :: script (k Returned)
  | _ => []
  end.

Fixpoint completion {A : Type} (p : py A) : exn + A :=
  match p with
  | Ret a => inr a
  | Raise e => inl e
  | Vis _ k => completion (k Returned)
  end.

(* ===================================================================== *)
(** ** Runs against a platform *)
(* ===================================================================== *)

(** What a run leaves behind: the calls made with the platform's answers,
    in order; the value returned or the exception that reached the caller;
    the platform's final state. *)
Record result (W A : Type) : Type := {
  trace : list event;
  outcome : exn + A;
  final : W
}.

Arguments trace {W A} r.
Arguments outcome {W A} r.
Arguments final {W A} r.

(** A platform answers each call in its current state and moves to a new
    state (also when the call raises). *)
Definition platform (W : Type) : Type := call -> W -> response * W.

Fixpoint run {W A : Type} (arc : platform W) (p : py A) (w : W) : result W A :=
  match p with
  | Ret a => {| trace := []; outcome := inr a; final := w |}
  | Raise e => {| trace := []; outcome := inl e; final := w |}
  | Vis c k =>
      let (r, w') := arc c w in
      let rest := run arc (k r) w' in
      {| trace := (c, r) :: trace rest;
         outcome := outcome rest;
         final := final rest |}
  end.

(** The calls of a trace, and those among them that operate on the
    geodatabase. *)
Definition issued (tr : list event) : list call := map fst tr.

Definition operations (tr : list event) : list call :=
  filter is_geodatabase_operation (issued tr).

(** The run returned to its caller without an exception. *)
Definition returned {W A : Type} (r : result W A) : Prop :=
  exists a, outcome r = inr a.

(** The effect of the privilege changes among [calls] on a store of
    privileges, for a platform whose [ChangePrivileges] acts on the store
    as [change dataset user View Edit]. *)
Definition privileges_after {P : Type}
    (change : string -> string -> string -> string -> P -> P)
    (calls : list call) (privs : P) : P :=
  fold_left
    (fun acc c =>
       match c with
       | ChangePrivileges_management in_dataset user View Edit =>
           change in_dataset user View Edit acc
       | _ => acc
       end)
    calls privs.

(* ===================================================================== *)
(** ** Platforms to run the script on *)
(* ===================================================================== *)

(** The properties below hold on every platform.  These instances serve
    to run the script on concrete ones. *)

(** A platform on which every call returns. *)
Definition accepting : platform unit := fun _ w => (Returned, w).

(** The exception of a geoprocessing tool whose output exists already. *)
Definition already_exists : exn :=
  Exn "ExecuteError" "ERROR 000258: Output already exists".

(** A platform that remembers the names of the feature classes created and
    refuses to create one a second time; every other call returns. *)
Definition keeping_names : platform (list string) := fun c names =>
  match c with
  | CreateFeatureclass_management _ out_name _ _ =>
      if existsb (String.eqb out_name) names
      then (Raised already_exists, names)
      else (Returned, out_name :: names)
  | _ => (Returned, names)
  end.

(** Joining two relative components the way [ntpath.join] does when the
    first does not end in a separator. *)
Definition join_backslash (a b : string) : string :=
  a ++ String BACKSLASH b.

(** A store of privileges as a table from dataset and user to the pair
    (may view, may edit), and [ChangePrivileges] on it: GRANT sets a
    privilege, REVOKE clears it, AS_IS keeps it. *)
Definition privilege_table : Type := string -> string -> bool * bool.

Definition set_privilege (how : string) (old : bool) : bool :=
  if String.eqb how "GRANT" then true
  else if String.eqb how "REVOKE" then false
  else old.

Definition change_table (in_dataset user View Edit : string)
    (t : privilege_table) : privilege_table :=
  fun d u =>
    if String.eqb d in_dataset && String.eqb u user
    then (set_privilege View (fst (t d u)), set_privilege Edit (snd (t d u)))
    else t d u.

(* ===================================================================== *)
(** ** Constants *)
(* ===================================================================== *)

Definition OUTPUT_GEODATABASE : string := "Database Connections\orcl$gis.sde".
Definition UTM_16N_NAD83 : SpatialReference :=
  arcpy_SpatialReference 26916. (* NAD_1983_UTM_Zone_16N *)

(** Feature class names *)
Definition FC_NAME_ERP : string := "GIS.DATABASES_ERP".
Definition FC_NAME_ERP_SITE : string := "GIS.DATABASES_ERP_SITE".
Definition FC_NAME_ERP_SITE_40A_4 : string := "GIS.DATABASES_ERP_SITE_40A_4".
Definition FC_NAME_ERP_SITE_40A_44 : string := "GIS.DATABASES_ERP_SITE_40A_44".
Definition FC_NAME_ERP_SITE_62_330 : string := "GIS.DATABASES_ERP_SITE_62_330".
Definition FC_NAME_ERP_SITE_FORESTRY : string :=
  "GIS.DATABASES_ERP_SITE_FORESTRY".
Definition FC_NAME_MSSW : string := "GIS.DATABASES_MSSW".
Definition FC_NAME_REG_STATION : string := "GIS.DATABASES_REG_STATION".
Definition FC_NAME_WI : string := "GIS.DATABASES_WELL_INVENTORY".
Definition FC_NAME_WPS : string := "GIS.DATABASES_WELL_PERMITS".
Definition FC_NAME_WUP_PERMITTED : string := "GIS.DATABASES_WUP_PERMITTED".
Definition FC_NAME_WUP_SURFACE : string := "GIS.DATABASES_WUP_SURFACE".
Definition FC_NAME_WUP_WELLS : string := "GIS.DATABASES_WUP_WELLS".

(* ===================================================================== *)
(** ** Utility functions *)
(* ===================================================================== *)

(** The message argument is evaluated before [AddMessage] is called, and
    the keyword arguments of [AddField_management] are evaluated in the
    order they are written before it is called. *)
Definition add_fields (table : string) (fields_spec : list tuple) : py unit :=
  for_each fields_spec (fun field_spec =>
    field_name <- getitem field_spec 0 ;;
    arcpy (AddMessage
             (format (lit "\t\tAdding {field_name}") "field_name" field_name)) ;;
    field_name <- getitem field_spec 0 ;;
    field_type <- getitem field_spec 1 ;;
    field_precision <- getitem field_spec 2 ;;
    field_scale <- getitem field_spec 3 ;;
    field_length <- getitem field_spec 4 ;;
    field_alias <- getitem field_spec 5 ;;
    field_is_nullable <- getitem field_spec 6 ;;
    field_is_required <- getitem field_spec 7 ;;
    field_domain <- getitem field_spec 8 ;;
    arcpy (AddField_management
             table field_name field_type field_precision field_scale
             field_length field_alias field_is_nullable field_is_required
             field_domain)).

(* ===================================================================== *)
(** ** Field specifications of the feature classes *)
(* ===================================================================== *)

Section FieldSpecifications.

Local Open Scope Z_scope.

(** The list bound to [fields_spec] in [create_databases_erp]. *)
Definition fields_spec_erp : list tuple :=
  (*      name type precision scale length alias nullable required domain *)
  [ tuple9 "application_number" "DOUBLE" "" "" "" "" true "" ""
  ; tuple9 "permit_number" "DOUBLE" "" "" "" "" true "" ""
  ; tuple9 "legacy_permit_number" "TEXT" "" "" 35 "" true "" ""
  ; tuple9 "applicant_first_name" "TEXT" "" "" 30 "" true "" ""
  ; tuple9 "applicant_last_name" "TEXT" "" "" 30 "" true "" ""
  ; tuple9 "applicant_company_name" "TEXT" "" "" 150 "" true "" ""
  ; tuple9 "project_name" "TEXT" "" "" 200 "" true "" ""
  ; tuple9 "project_address" "TEXT" "" "" 1000 "" true "" ""
  ; tuple9 "issue_date" "DATE" "" "" "" "" true "" ""
  ; tuple9 "expiration_date" "DATE" "" "" "" "" true "" ""
  ; tuple9 "rule_type" "TEXT" "" "" 17 "" true "" ""
  ].

(** The list bound to [fields_spec] in [create_databases_erp_site]. *)
Definition fields_spec_erp_site : list tuple :=
  (*      name type precision scale length alias nullable required domain *)
  [ tuple9 "site_id" "DOUBLE" "" "" "" "" true "" ""
  ; tuple9 "permit_number" "DOUBLE" "" "" "" "" true "" ""
  ; tuple9 "project_number" "TEXT" "" "" 50 "" true "" ""
  ; tuple9 "permit_type" "TEXT" "" "" 8 "" true "" ""
  ; tuple9 "county_fips" "TEXT" "" "" 8 "" true "" ""
  ; tuple9 "official_permit_number" "TEXT" "" "" 8 "" true "" ""
  ; tuple9 "sequence_number" "TEXT" "" "" 8 "" true "" ""
  ; tuple9 "application_status" "TEXT" "" "" 100 "" true "" ""
  ; tuple9 "rule_code" "TEXT" "" "" 100 "" true "" ""
  ; tuple9 "rule_description" "TEXT" "" "" 200 "" true "" ""
  ; tuple9 "project_name" "TEXT" "" "" 200 "" true "" ""
  ; tuple9 "project_county" "TEXT" "" "" 20 "" true "" ""
  ; tuple9 "site_location" "TEXT" "" "" 1000 "" true "" ""
  ; tuple9 "party_role" "TEXT" "" "" 100 "" true "" ""
  ; tuple9 "party_company_name" "TEXT" "" "" 150 "" true "" ""
  ; tuple9 "party_first_name" "TEXT" "" "" 30 "" true "" ""
  ; tuple9 "party_last_name" "TEXT" "" "" 30 "" true "" ""
  ; tuple9 "expiration_date" "DATE" "" "" "" "" true "" ""
  ; tuple9 "issue_date" "DATE" "" "" "" "" true "" ""
  ; tuple9 "review_date" "DATE" "" "" "" "" true "" ""
  ; tuple9 "legacy_permit_number" "TEXT" "" "" 35 "" true "" ""
  ; tuple9 "item_number" "DOUBLE" "" "" "" "" true "" ""
  ; tuple9 "item_type" "TEXT" "" "" 100 "" true "" ""
  ; tuple9 "item_stage" "TEXT" "" "" 100 "" true "" ""
  ].

(** The list bound to [fields_spec] in [create_databases_erp_site_40a_4]. *)
Definition fields_spec_erp_site_40a_4 : list tuple :=
  (*      name type precision scale length alias nullable required domain *)
  [ tuple9 "site_id" "DOUBLE" "" "" "" "" true "" ""
  ; tuple9 "permit_number" "DOUBLE" "" "" "" "" true "" ""
  ; tuple9 "project_number" "TEXT" "" "" 50 "" true "" ""
  ; tuple9 "permit_type" "TEXT" "" "" 8 "" true "" ""
  ; tuple9 "county_fips" "TEXT" "" "" 8 "" true "" ""
  ; tuple9 "official_permit_number" "TEXT" "" "" 8 "" true "" ""
  ; tuple9 "sequence_number" "TEXT" "" "" 8 "" true "" ""
  ; tuple9 "application_status" "TEXT" "" "" 100 "" true "" ""
  ; tuple9 "rule_code" "TEXT" "" "" 100 "" true "" ""
  ; tuple9 "rule_description" "TEXT" "" "" 200 "" true "" ""
  ; tuple9 "project_name" "TEXT" "" "" 200 "" true "" ""
  ; tuple9 "project_county" "TEXT" "" "" 20 "" true "" ""
  ; tuple9 "site_location" "TEXT" "" "" 1000 "" true "" ""
  ; tuple9 "expiration_date" "DATE" "" "" "" "" true "" ""
  ; tuple9 "issue_date" "DATE" "" "" "" "" true "" ""
  ; tuple9 "review_date" "DATE" "" "" "" "" true "" ""
  ; tuple9 "legacy_permit_number" "TEXT" "" "" 35 "" true "" ""
  ; tuple9 "item_number" "DOUBLE" "" "" "" "" true "" ""
  ; tuple9 "item_type" "TEXT" "" "" 100 "" true "" ""
  ; tuple9 "item_stage" "TEXT" "" "" 100 "" true "" ""
  ].

(** The list bound to [fields_spec] in [create_databases_erp_site_40a_44]. *)
Definition fields_spec_erp_site_40a_44 : list tuple :=
  (*      name type precision scale length alias nullable required domain *)
  [ tuple9 "site_id" "DOUBLE" "" "" "" "" true "" ""
  ; tuple9 "permit_number" "DOUBLE" "" "" "" "" true "" ""
  ; tuple9 "project_number" "TEXT" "" "" 50 "" true "" ""
  ; tuple9 "permit_type" "TEXT" "" "" 8 "" true "" ""
  ; tuple9 "county_fips" "TEXT" "" "" 8 "" true "" ""
  ; tuple9 "official_permit_number" "TEXT" "" "" 8 "" true "" ""
  ; tuple9 "sequence_number" "TEXT" "" "" 8 "" true "" ""
  ; tuple9 "application_status" "TEXT" "" "" 100 "" true "" ""
  ; tuple9 "rule_code" "TEXT" "" "" 100 "" true "" ""
  ; tuple9 "rule_description" "TEXT" "" "" 200 "" true "" ""
  ; tuple9 "project_name" "TEXT" "" "" 200 "" true "" ""
  ; tuple9 "project_county" "TEXT" "" "" 20 "" true "" ""
  ; tuple9 "site_location" "TEXT" "" "" 1000 "" true "" ""
  ; tuple9 "expiration_date" "DATE" "" "" "" "" true "" ""
  ; tuple9 "issue_date" "DATE" "" "" "" "" true "" ""
  ; tuple9 "review_date" "DATE" "" "" "" "" true "" ""
  ; tuple9 "legacy_permit_number" "TEXT" "" "" 35 "" true "" ""
  ; tuple9 "item_number" "DOUBLE" "" "" "" "" true "" ""
  ; tuple9 "item_type" "TEXT" "" "" 100 "" true "" ""
  ; tuple9 "item_stage" "TEXT" "" "" 100 "" true "" ""
  ].

(** The list bound to [fields_spec] in [create_databases_erp_site_62_330]. *)
Definition fields_spec_erp_site_62_330 : list tuple :=
  (*      name type precision scale length alias nullable required domain *)
  [ tuple9 "site_id" "DOUBLE" "" "" "" "" true "" ""
  ; tuple9 "permit_number" "DOUBLE" "" "" "" "" true "" ""
  ; tuple9 "project_number" "TEXT" "" "" 50 "" true "" ""
  ; tuple9 "permit_type" "TEXT" "" "" 8 "" true "" ""
  ; tuple9 "county_fips" "TEXT" "" "" 8 "" true "" ""
  ; tuple9 "official_permit_number" "TEXT" "" "" 8 "" true "" ""
  ; tuple9 "sequence_number" "TEXT" "" "" 8 "" true "" ""
  ; tuple9 "application_status" "TEXT" "" "" 100 "" true "" ""
  ; tuple9 "rule_code" "TEXT" "" "" 100 "" true "" ""
  ; tuple9 "rule_description" "TEXT" "" "" 200 "" true "" ""
  ; tuple9 "project_name" "TEXT" "" "" 200 "" true "" ""
  ; tuple9 "project_county" "TEXT" "" "" 20 "" true "" ""
  ; tuple9 "site_location" "TEXT" "" "" 1000 "" true "" ""
  ; tuple9 "expiration_date" "DATE" "" "" "" "" true "" ""
  ; tuple9 "issue_date" "DATE" "" "" "" "" true "" ""
  ; tuple9 "review_date" "DATE" "" "" "" "" true "" ""
  ; tuple9 "legacy_permit_number" "TEXT" "" "" 35 "" true "" ""
  ; tuple9 "item_number" "DOUBLE" "" "" "" "" true "" ""
  ; tuple9 "item_type" "TEXT" "" "" 100 "" true "" ""
  ; tuple9 "item_stage" "TEXT" "" "" 100 "" true "" ""
  ].

(** The list bound to [fields_spec] in [create_databases_erp_site_forestry]. *)
Definition fields_spec_erp_site_forestry : list tuple :=
  (*      name type precision scale length alias nullable required domain *)
  [ tuple9 "site_id" "DOUBLE" "" "" "" "" true "" ""
  ; tuple9 "permit_number" "DOUBLE" "" "" "" "" true "" ""
  ; tuple9 "project_number" "TEXT" "" "" 50 "" true "" ""
  ; tuple9 "permit_type" "TEXT" "" "" 8 "" true "" ""
  ; tuple9 "county_fips" "TEXT" "" "" 8 "" true "" ""
  ; tuple9 "official_permit_number" "TEXT" "" "" 8 "" true "" ""
  ; tuple9 "sequence_number" "TEXT" "" "" 8 "" true "" ""
  ; tuple9 "application_status" "TEXT" "" "" 100 "" true "" ""
  ; tuple9 "rule_code" "TEXT" "" "" 100 "" true "" ""
  ; tuple9 "rule_description" "TEXT" "" "" 200 "" true "" ""
  ; tuple9 "project_name" "TEXT" "" "" 200 "" true "" ""
  ; tuple9 "project_county" "TEXT" "" "" 20 "" true "" ""
  ; tuple9 "site_location" "TEXT" "" "" 1000 "" true "" ""
  ; tuple9 "expiration_date" "DATE" "" "" "" "" true "" ""
  ; tuple9 "issue_date" "DATE" "" "" "" "" true "" ""
  ; tuple9 "review_date" "DATE" "" "" "" "" true "" ""
  ; tuple9 "legacy_permit_number" "TEXT" "" "" 35 "" true "" ""
  ; tuple9 "item_number" "DOUBLE" "" "" "" "" true "" ""
  ; tuple9 "item_type" "TEXT" "" "" 100 "" true "" ""
  ; tuple9 "item_stage" "TEXT" "" "" 100 "" true "" ""
  ].

(** The list bound to [fields_spec] in [create_databases_mssw]. *)
Definition fields_spec_mssw : list tuple :=
  (*      name type precision scale length alias nullable required domain *)
  [ tuple9 "permit_number" "TEXT" "" "" 35 "" true "" ""
  ; tuple9 "appl_first_name" "TEXT" "" "" 30 "" true "" ""
  ; tuple9 "appl_last_name" "TEXT" "" "" 30 "" true "" ""
  ; tuple9 "applicant_company_name" "TEXT" "" "" 150 "" true "" ""
  ; tuple9 "project_name" "TEXT" "" "" 200 "" true "" ""
  ; tuple9 "appl_received" "DATE" "" "" "" "" true "" ""
  ].

(** The list bound to [fields_spec] in [create_databases_reg_station]. *)
Definition fields_spec_reg_station : list tuple :=
  (*      name type precision scale length alias nullable required domain *)
  [ tuple9 "station_id" "TEXT" "" "" 50 "" true "" ""
  ; tuple9 "project_number" "TEXT" "" "" 50 "" true "" ""
  ; tuple9 "permit_type" "TEXT" "" "" 8 "" true "" ""
  ; tuple9 "county_fips" "TEXT" "" "" 8 "" true "" ""
  ; tuple9 "official_permit_number" "TEXT" "" "" 8 "" true "" ""
  ; tuple9 "sequence_number" "TEXT" "" "" 8 "" true "" ""
  ; tuple9 "fluwid" "TEXT" "" "" 50 "" true "" ""
  ; tuple9 "station_type" "TEXT" "" "" 100 "" true "" ""
  ; tuple9 "monitoring_well_type" "TEXT" "" "" 100 "" true "" ""
  ; tuple9 "station_name" "TEXT" "" "" 50 "" true "" ""
  ; tuple9 "station_status" "TEXT" "" "" 100 "" true "" ""
  ; tuple9 "water_source_type" "TEXT" "" "" 100 "" true "" ""
  ; tuple9 "water_source_name" "TEXT" "" "" 100 "" true "" ""
  ; tuple9 "meter_type" "TEXT" "" "" 100 "" true "" ""
  ; tuple9 "diameter" "DOUBLE" "" "" "" "" true "" ""
  ; tuple9 "casing_depth" "DOUBLE" "" "" "" "" true "" ""
  ; tuple9 "well_depth" "DOUBLE" "" "" "" "" true "" ""
  ; tuple9 "pump_rate" "DOUBLE" "" "" "" "" true "" ""
  ; tuple9 "pumping_report" "TEXT" "" "" 7 "" true "" ""
  ; tuple9 "wq_mi" "TEXT" "" "" 7 "" true "" ""
  ; tuple9 "wq_lp" "TEXT" "" "" 7 "" true "" ""
  ; tuple9 "wl_gw" "TEXT" "" "" 7 "" true "" ""
  ; tuple9 "station_county" "TEXT" "" "" 20 "" true "" ""
  ; tuple9 "station_location" "TEXT" "" "" 1000 "" true "" ""
  ; tuple9 "location_method" "TEXT" "" "" 16 "" true "" ""
  ; tuple9 "project_primary_use" "TEXT" "" "" 100 "" true "" ""
  ; tuple9 "project_secondary_use" "TEXT" "" "" 100 "" true "" ""
  ; tuple9 "water_use_level_1" "TEXT" "" "" 100 "" true "" ""
  ; tuple9 "water_use_level_2" "TEXT" "" "" 100 "" true "" ""
  ; tuple9 "water_use_level_3" "TEXT" "" "" 100 "" true "" ""
  ; tuple9 "water_use_level_4" "TEXT" "" "" 100 "" true "" ""
  ; tuple9 "station_allocation_gpd" "TEXT" "" "" 100 "" true "" ""
  ; tuple9 "project_allocation_gpd" "DOUBLE" "" "" "" "" true "" ""
  ; tuple9 "project_allocation_monthly" "DOUBLE" "" "" "" "" true "" ""
  ; tuple9 "application_status" "TEXT" "" "" 100 "" true "" ""
  ; tuple9 "expiration_date" "DATE" "" "" "" "" true "" ""
  ; tuple9 "owner_company_name" "TEXT" "" "" 150 "" true "" ""
  ; tuple9 "owner_first_name" "TEXT" "" "" 30 "" true "" ""
  ; tuple9 "owner_last_name" "TEXT" "" "" 30 "" true "" ""
  ; tuple9 "legacy_apnum" "DOUBLE" "" "" "" "" true "" ""
  ; tuple9 "legacy_permit_number" "TEXT" "" "" 35 "" true "" ""
  ; tuple9 "nwf_id" "DOUBLE" "" "" "" "" true "" ""
  ; tuple9 "wps_permit" "TEXT" "" "" 50 "" true "" ""
  ].

(** The list bound to [fields_spec] in [create_databases_well_inventory]. *)
Definition fields_spec_well_inventory : list tuple :=
  (*      name type precision scale length alias nullable required domain *)
  [ tuple9 "nwf_id" "LONG" "" "" "" "" true "" ""
  ; tuple9 "site_id" "TEXT" "" "" 15 "" true "" ""
  ; tuple9 "site_type" "TEXT" "" "" 1 "" true "" ""
  ; tuple9 "well_name" "TEXT" "" "" 50 "" true "" ""
  ; tuple9 "first_name" "TEXT" "" "" 30 "" true "" ""
  ; tuple9 "last_name" "TEXT" "" "" 50 "" true "" ""
  ; tuple9 "well_depth" "LONG" "" "" "" "" true "" ""
  ; tuple9 "casing_depth" "LONG" "" "" "" "" true "" ""
  ; tuple9 "use_permit" "LONG" "" "" "" "" true "" ""
  ; tuple9 "cps_permit" "TEXT" "" "" 10 "" true "" ""
  ; tuple9 "state_id" "TEXT" "" "" 7 "" true "" ""
  ; tuple9 "spcap" "DOUBLE" "" "" "" "" true "" ""
  ; tuple9 "calc_trans" "LONG" "" "" "" "" true "" ""
  ; tuple9 "loc_method" "TEXT" "" "" 30 "" true "" ""
  ].

(** The list bound to [fields_spec] in [create_databases_well_permits]. *)
Definition fields_spec_well_permits : list tuple :=
  (*      name type precision scale length alias nullable required domain *)
  [ tuple9 "permit_number" "TEXT" "" "" 50 "" true "" ""
  ; tuple9 "legacy_permit_number" "TEXT" "" "" 35 "" true "" ""
  ; tuple9 "related_permit_1" "TEXT" "" "" 50 "" true "" ""
  ; tuple9 "related_permit_2" "TEXT" "" "" 50 "" true "" ""
  ; tuple9 "job_type" "TEXT" "" "" 100 "" true "" ""
  ; tuple9 "status" "TEXT" "" "" 200 "" true "" ""
  ; tuple9 "official_id" "LONG" "" "" "" "" true "" ""
  ; tuple9 "issue_date" "DATE" "" "" "" "" true "" ""
  ; tuple9 "expiration_date" "DATE" "" "" "" "" true "" ""
  ; tuple9 "completion_date" "DATE" "" "" "" "" true "" ""
  ; tuple9 "exemption" "TEXT" "" "" 7 "" true "" ""
  ; tuple9 "owner_first" "TEXT" "" "" 30 "" true "" ""
  ; tuple9 "owner_last" "TEXT" "" "" 30 "" true "" ""
  ; tuple9 "well_use" "TEXT" "" "" 100 "" true "" ""
  ; tuple9 "diameter" "DOUBLE" "" "" "" "" true "" ""
  ; tuple9 "appl_well_depth" "DOUBLE" "" "" "" "" true "" ""
  ; tuple9 "appl_casing_depth" "DOUBLE" "" "" "" "" true "" ""
  ; tuple9 "wcr_well_depth" "DOUBLE" "" "" "" "" true "" ""
  ; tuple9 "wcr_casing_depth" "DOUBLE" "" "" "" "" true "" ""
  ; tuple9 "open_hole_from" "DOUBLE" "" "" "" "" true "" ""
  ; tuple9 "open_hole_to" "DOUBLE" "" "" "" "" true "" ""
  ; tuple9 "screen_from" "DOUBLE" "" "" "" "" true "" ""
  ; tuple9 "screen_to" "DOUBLE" "" "" "" "" true "" ""
  ; tuple9 "well_street" "TEXT" "" "" 60 "" true "" ""
  ; tuple9 "well_street_2" "TEXT" "" "" 50 "" true "" ""
  ; tuple9 "well_city" "TEXT" "" "" 30 "" true "" ""
  ; tuple9 "well_county" "TEXT" "" "" 20 "" true "" ""
  ; tuple9 "parcel_id" "TEXT" "" "" 50 "" true "" ""
  ; tuple9 "latitude" "DOUBLE" "" "" "" "" true "" ""
  ; tuple9 "longitude" "DOUBLE" "" "" "" "" true "" ""
  ; tuple9 "township" "TEXT" "" "" 3 "" true "" ""
  ; tuple9 "range" "TEXT" "" "" 3 "" true "" ""
  ; tuple9 "section" "SHORT" "" "" "" "" true "" ""
  ; tuple9 "cu_permit" "TEXT" "" "" 50 "" true "" ""
  ; tuple9 "fluwid" "TEXT" "" "" 50 "" true "" ""
  ; tuple9 "location_method" "TEXT" "" "" 16 "" true "" ""
  ; tuple9 "contractor_license" "LONG" "" "" "" "" true "" ""
  ; tuple9 "contractor_name" "TEXT" "" "" 70 "" true "" ""
  ; tuple9 "wrca" "TEXT" "" "" 7 "" true "" ""
  ; tuple9 "arc" "TEXT" "" "" 7 "" true "" ""
  ; tuple9 "grout_line" "TEXT" "" "" 100 "" true "" ""
  ; tuple9 "construction_method" "TEXT" "" "" 100 "" true "" ""
  ; tuple9 "w62_524" "TEXT" "" "" 7 "" true "" ""
  ; tuple9 "stn_id" "LONG" "" "" "" "" true "" ""
  ].

(** The list bound to [fields_spec] in [create_databases_wup_permitted]. *)
Definition fields_spec_wup_permitted : list tuple :=
  (*      name type precision scale length alias nullable required domain *)
  [ tuple9 "permit_number" "LONG" "" "" "" "" true "" ""
  ; tuple9 "owner_first_name" "TEXT" "" "" 20 "" true "" ""
  ; tuple9 "owner_last_name" "TEXT" "" "" 40 "" true "" ""
  ; tuple9 "project_name" "TEXT" "" "" 80 "" true "" ""
  ; tuple9 "issue_date" "DATE" "" "" "" "" true "" ""
  ; tuple9 "expiration_date" "DATE" "" "" "" "" true "" ""
  ; tuple9 "rule_type" "TEXT" "" "" 15 "" true "" ""
  ].

(** The list bound to [fields_spec] in [create_databases_wup_surface]. *)
Definition fields_spec_wup_surface : list tuple :=
  (*      name type precision scale length alias nullable required domain *)
  [ tuple9 "cu_apnum" "DOUBLE" "" "" "" "" true "" ""
  ; tuple9 "cu_permit" "TEXT" "" "" 35 "" true "" ""
  ; tuple9 "ownerlast" "TEXT" "" "" 30 "" true "" ""
  ; tuple9 "ownerfirst" "TEXT" "" "" 30 "" true "" ""
  ; tuple9 "address" "TEXT" "" "" 500 "" true "" ""
  ; tuple9 "pmtmaxmonthly" "DOUBLE" "" "" "" "" true "" ""
  ; tuple9 "pmtavggpd" "DOUBLE" "" "" "" "" true "" ""
  ; tuple9 "primaryuse" "TEXT" "" "" 100 "" true "" ""
  ; tuple9 "other_uses" "TEXT" "" "" 100 "" true "" ""
  ; tuple9 "expire_date" "DATE" "" "" "" "" true "" ""
  ; tuple9 "swstateid" "TEXT" "" "" 50 "" true "" ""
  ; tuple9 "swkey" "DOUBLE" "" "" "" "" true "" ""
  ; tuple9 "loc_method" "TEXT" "" "" 100 "" true "" ""
  ].

(** The list bound to [fields_spec] in [create_databases_wup_wells]. *)
Definition fields_spec_wup_wells : list tuple :=
  (*      name type precision scale length alias nullable required domain *)
  [ tuple9 "cu_apnum" "DOUBLE" "" "" "" "" true "" ""
  ; tuple9 "cu_permit" "TEXT" "" "" 35 "" true "" ""
  ; tuple9 "ownerlast" "TEXT" "" "" 30 "" true "" ""
  ; tuple9 "ownerfirst" "TEXT" "" "" 30 "" true "" ""
  ; tuple9 "address" "TEXT" "" "" 500 "" true "" ""
  ; tuple9 "diameter" "DOUBLE" "" "" "" "" true "" ""
  ; tuple9 "pmtmaxgpd" "DOUBLE" "" "" "" "" true "" ""
  ; tuple9 "pmtavggpd" "DOUBLE" "" "" "" "" true "" ""
  ; tuple9 "primaryuse" "TEXT" "" "" 100 "" true "" ""
  ; tuple9 "other_uses" "TEXT" "" "" 100 "" true "" ""
  ; tuple9 "expire_date" "DATE" "" "" "" "" true "" ""
  ; tuple9 "fluwid" "TEXT" "" "" 50 "" true "" ""
  ; tuple9 "wps_permit" "TEXT" "" "" 10 "" true "" ""
  ; tuple9 "nwf_id" "DOUBLE" "" "" "" "" true "" ""
  ; tuple9 "well_key" "DOUBLE" "" "" "" "" true "" ""
  ; tuple9 "loc_method" "TEXT" "" "" 100 "" true "" ""
  ].

End FieldSpecifications.

(** The thirteen lists of field specifications, in the order of the
    functions in the source. *)
Definition all_fields_spec : list (list tuple) :=
  [ fields_spec_erp; fields_spec_erp_site; fields_spec_erp_site_40a_4
  ; fields_spec_erp_site_40a_44; fields_spec_erp_site_62_330
  ; fields_spec_erp_site_forestry; fields_spec_mssw; fields_spec_reg_station
  ; fields_spec_well_inventory; fields_spec_well_permits
  ; fields_spec_wup_permitted; fields_spec_wup_surface; fields_spec_wup_wells
  ].

(* ===================================================================== *)
(** ** Feature class creation functions *)
(* ===================================================================== *)

Section Script.

(** [os.path.join] of the interpreter that runs the script. *)
Variable os_path_join : string -> string -> string.

(** GIS.DATABASES_ERP *)
Definition create_databases_erp : py unit :=
  arcpy (AddMessage
           (format (lit "\n\nCreating feature class {fc_name}")
              "fc_name" FC_NAME_ERP)) ;;
  let fc_erp :=
    os_path_join OUTPUT_GEODATABASE FC_NAME_ERP in
  arcpy (CreateFeatureclass_management
           OUTPUT_GEODATABASE FC_NAME_ERP "POINT" UTM_16N_NAD83) ;;
  arcpy (AddMessage (lit "\tAdding fields")) ;;
  let fields_spec := fields_spec_erp in
  add_fields fc_erp fields_spec ;;
  arcpy (AddMessage (lit "\tGranting privileges")) ;;
  arcpy (ChangePrivileges_management
           fc_erp "GIS_READ" "GRANT" "AS_IS").

(** GIS.DATABASES_ERP_SITE *)
Definition create_databases_erp_site : py unit :=
  arcpy (AddMessage
           (format (lit "\n\nCreating feature class {fc_name}")
              "fc_name" FC_NAME_ERP_SITE)) ;;
  let fc_erp_site :=
    os_path_join OUTPUT_GEODATABASE FC_NAME_ERP_SITE in
  arcpy (CreateFeatureclass_management
           OUTPUT_GEODATABASE FC_NAME_ERP_SITE "POINT" UTM_16N_NAD83) ;;
  arcpy (AddMessage (lit "\tAdding fields")) ;;
  let fields_spec := fields_spec_erp_site in
  add_fields fc_erp_site fields_spec ;;
  arcpy (AddMessage (lit "\tGranting privileges")) ;;
  arcpy (ChangePrivileges_management
           fc_erp_site "GIS_READ" "GRANT" "AS_IS").

(** GIS.DATABASES_ERP_SITE_40A_4 *)
Definition create_databases_erp_site_40a_4 : py unit :=
  arcpy (AddMessage
           (format (lit "\n\nCreating feature class {fc_name}")
              "fc_name" FC_NAME_ERP_SITE_40A_4)) ;;
  let fc_erp_site_40a_4 :=
    os_path_join OUTPUT_GEODATABASE FC_NAME_ERP_SITE_40A_4 in
  arcpy (CreateFeatureclass_management
           OUTPUT_GEODATABASE FC_NAME_ERP_SITE_40A_4 "POINT" UTM_16N_NAD83) ;;
  arcpy (AddMessage (lit "\tAdding fields")) ;;
  let fields_spec := fields_spec_erp_site_40a_4 in
  add_fields fc_erp_site_40a_4 fields_spec ;;
  arcpy (AddMessage (lit "\tGranting privileges")) ;;
  arcpy (ChangePrivileges_management
           fc_erp_site_40a_4 "GIS_READ" "GRANT" "AS_IS").

(** GIS.DATABASES_ERP_SITE_40A_44 *)
Definition create_databases_erp_site_40a_44 : py unit :=
  arcpy (AddMessage
           (format (lit "\n\nCreating feature class {fc_name}")
              "fc_name" FC_NAME_ERP_SITE_40A_44)) ;;
  let fc_erp_site_40a_44 :=
    os_path_join OUTPUT_GEODATABASE FC_NAME_ERP_SITE_40A_44 in
  arcpy (CreateFeatureclass_management
           OUTPUT_GEODATABASE FC_NAME_ERP_SITE_40A_44 "POINT" UTM_16N_NAD83) ;;
  arcpy (AddMessage (lit "\tAdding fields")) ;;
  let fields_spec := fields_spec_erp_site_40a_44 in
  add_fields fc_erp_site_40a_44 fields_spec ;;
  arcpy (AddMessage (lit "\tGranting privileges")) ;;
  arcpy (ChangePrivileges_management
           fc_erp_site_40a_44 "GIS_READ" "GRANT" "AS_IS").

(** GIS.DATABASES_ERP_SITE_62_330 *)
Definition create_databases_erp_site_62_330 : py unit :=
  arcpy (AddMessage
           (format (lit "\n\nCreating feature class {fc_name}")
              "fc_name" FC_NAME_ERP_SITE_62_330)) ;;
  let fc_erp_site_62_330 :=
    os_path_join OUTPUT_GEODATABASE FC_NAME_ERP_SITE_62_330 in
  arcpy (CreateFeatureclass_management
           OUTPUT_GEODATABASE FC_NAME_ERP_SITE_62_330 "POINT" UTM_16N_NAD83) ;;
  arcpy (AddMessage (lit "\tAdding fields")) ;;
  let fields_spec := fields_spec_erp_site_62_330 in
  add_fields fc_erp_site_62_330 fields_spec ;;
  arcpy (AddMessage (lit "\tGranting privileges")) ;;
  arcpy (ChangePrivileges_management
           fc_erp_site_62_330 "GIS_READ" "GRANT" "AS_IS").

(** GIS.DATABASES_ERP_SITE_FORESTRY *)
Definition create_databases_erp_site_forestry : py unit :=
  arcpy (AddMessage
           (format (lit "\n\nCreating feature class {fc_name}")
              "fc_name" FC_NAME_ERP_SITE_FORESTRY)) ;;
  let fc_erp_site_forestry :=
    os_path_join OUTPUT_GEODATABASE FC_NAME_ERP_SITE_FORESTRY in
  arcpy (CreateFeatureclass_management
           OUTPUT_GEODATABASE FC_NAME_ERP_SITE_FORESTRY "POINT" UTM_16N_NAD83) ;;
  arcpy (AddMessage (lit "\tAdding fields")) ;;
  let fields_spec := fields_spec_erp_site_forestry in
  add_fields fc_erp_site_forestry fields_spec ;;
  arcpy (AddMessage (lit "\tGranting privileges")) ;;
  arcpy (ChangePrivileges_management
           fc_erp_site_forestry "GIS_READ" "GRANT" "AS_IS").

(** GIS.DATABASES_MSSW *)
Definition create_databases_mssw : py unit :=
  arcpy (AddMessage
           (format (lit "\n\nCreating feature class {fc_name}")
              "fc_name" FC_NAME_MSSW)) ;;
  let fc_mssw :=
    os_path_join OUTPUT_GEODATABASE FC_NAME_MSSW in
  arcpy (CreateFeatureclass_management
           OUTPUT_GEODATABASE FC_NAME_MSSW "POINT" UTM_16N_NAD83) ;;
  arcpy (AddMessage (lit "\tAdding fields")) ;;
  let fields_spec := fields_spec_mssw in
  add_fields fc_mssw fields_spec ;;
  arcpy (AddMessage (lit "\tGranting privileges")) ;;
  arcpy (ChangePrivileges_management
           fc_mssw "GIS_READ" "GRANT" "AS_IS").

(** GIS.DATABASES_REG_STATION *)
Definition create_databases_reg_station : py unit :=
  arcpy (AddMessage
           (format (lit "\n\nCreating feature class {fc_name}")
              "fc_name" FC_NAME_REG_STATION)) ;;
  let fc_reg_station :=
    os_path_join OUTPUT_GEODATABASE FC_NAME_REG_STATION in
  arcpy (CreateFeatureclass_management
           OUTPUT_GEODATABASE FC_NAME_REG_STATION "POINT" UTM_16N_NAD83) ;;
  arcpy (AddMessage (lit "\tAdding fields")) ;;
  let fields_spec := fields_spec_reg_station in
  add_fields fc_reg_station fields_spec ;;
  arcpy (AddMessage (lit "\tCreating indexes")) ;;
  arcpy (AddIndex_management
           fc_reg_station
           "FLUWID"
           (format "{table_name}__I1" "table_name" FC_NAME_REG_STATION)) ;;
  arcpy (AddIndex_management
           fc_reg_station
           "LEGACY_PERMIT_NUMBER"
           (format "{table_name}__I2" "table_name" FC_NAME_REG_STATION)) ;;
  arcpy (AddMessage (lit "\tGranting privileges")) ;;
  arcpy (ChangePrivileges_management
           fc_reg_station "GIS_READ" "GRANT" "AS_IS").

(** GIS.DATABASES_WELL_INVENTORY *)
Definition create_databases_well_inventory : py unit :=
  arcpy (AddMessage
           (format (lit "\n\nCreating feature class {fc_name}")
              "fc_name" FC_NAME_WI)) ;;
  let fc_wi :=
    os_path_join OUTPUT_GEODATABASE FC_NAME_WI in
  arcpy (CreateFeatureclass_management
           OUTPUT_GEODATABASE FC_NAME_WI "POINT" UTM_16N_NAD83) ;;
  arcpy (AddMessage (lit "\tAdding fields")) ;;
  let fields_spec := fields_spec_well_inventory in
  add_fields fc_wi fields_spec ;;
  arcpy (AddMessage (lit "\tCreating indexes")) ;;
  arcpy (AddIndex_management
           fc_wi
           "NWF_ID"
           (format "{table_name}__I1" "table_name" FC_NAME_WI)) ;;
  arcpy (AddIndex_management
           fc_wi
           "STATE_ID"
           (format "{table_name}__I2" "table_name" FC_NAME_WI)) ;;
  arcpy (AddMessage (lit "\tGranting privileges")) ;;
  arcpy (ChangePrivileges_management
           fc_wi "GIS_READ" "GRANT" "AS_IS").

(** GIS.DATABASES_WELL_PERMITS *)
Definition create_databases_well_permits : py unit :=
  arcpy (AddMessage
           (format (lit "\n\nCreating feature class {fc_name}")
              "fc_name" FC_NAME_WPS)) ;;
  let fc_wps :=
    os_path_join OUTPUT_GEODATABASE FC_NAME_WPS in
  arcpy (CreateFeatureclass_management
           OUTPUT_GEODATABASE FC_NAME_WPS "POINT" UTM_16N_NAD83) ;;
  arcpy (AddMessage (lit "\tAdding fields")) ;;
  let fields_spec := fields_spec_well_permits in
  add_fields fc_wps fields_spec ;;
  arcpy (AddMessage (lit "\tCreating indexes")) ;;
  arcpy (AddIndex_management
           fc_wps
           "FLUWID"
           (format "{table_name}__I1" "table_name" FC_NAME_WPS)) ;;
  arcpy (AddIndex_management
           fc_wps
           "PERMIT_NUMBER"
           (format "{table_name}__I2" "table_name" FC_NAME_WPS)) ;;
  arcpy (AddMessage (lit "\tGranting privileges")) ;;
  arcpy (ChangePrivileges_management
           fc_wps "GIS_READ" "GRANT" "AS_IS").

(** GIS.DATABASES_WUP_PERMITTED *)
Definition create_databases_wup_permitted : py unit :=
  arcpy (AddMessage
           (format (lit "\n\nCreating feature class {fc_name}")
              "fc_name" FC_NAME_WUP_PERMITTED)) ;;
  let fc_wup :=
    os_path_join OUTPUT_GEODATABASE FC_NAME_WUP_PERMITTED in
  arcpy (CreateFeatureclass_management
           OUTPUT_GEODATABASE FC_NAME_WUP_PERMITTED "POINT" UTM_16N_NAD83) ;;
  arcpy (AddMessage (lit "\tAdding fields")) ;;
  let fields_spec := fields_spec_wup_permitted in
  add_fields fc_wup fields_spec ;;
  arcpy (AddMessage (lit "\tGranting privileges")) ;;
  arcpy (ChangePrivileges_management
           fc_wup "GIS_READ" "GRANT" "AS_IS").

(** GIS.DATABASES_WUP_SURFACE *)
Definition create_databases_wup_surface : py unit :=
  arcpy (AddMessage
           (format (lit "\n\nCreating feature class {fc_name}")
              "fc_name" FC_NAME_WUP_SURFACE)) ;;
  let fc_wup_surf :=
    os_path_join OUTPUT_GEODATABASE FC_NAME_WUP_SURFACE in
  arcpy (CreateFeatureclass_management
           OUTPUT_GEODATABASE FC_NAME_WUP_SURFACE "POINT" UTM_16N_NAD83) ;;
  arcpy (AddMessage (lit "\tAdding fields")) ;;
  let fields_spec := fields_spec_wup_surface in
  add_fields fc_wup_surf fields_spec ;;
  arcpy (AddMessage (lit "\tGranting privileges")) ;;
  arcpy (ChangePrivileges_management
           fc_wup_surf "GIS_READ" "GRANT" "AS_IS").

(** GIS.DATABASES_WUP_WELLS *)
Definition create_databases_wup_wells : py unit :=
  arcpy (AddMessage
           (format (lit "\n\nCreating feature class {fc_name}")
              "fc_name" FC_NAME_WUP_WELLS)) ;;
  let fc_wup_wells :=
    os_path_join OUTPUT_GEODATABASE FC_NAME_WUP_WELLS in
  arcpy (CreateFeatureclass_management
           OUTPUT_GEODATABASE FC_NAME_WUP_WELLS "POINT" UTM_16N_NAD83) ;;
  arcpy (AddMessage (lit "\tAdding fields")) ;;
  let fields_spec := fields_spec_wup_wells in
  add_fields fc_wup_wells fields_spec ;;
  arcpy (AddMessage (lit "\tGranting privileges")) ;;
  arcpy (ChangePrivileges_management
           fc_wup_wells "GIS_READ" "GRANT" "AS_IS").

(* ===================================================================== *)
(** ** Main *)
(* ===================================================================== *)

(** The statements under [if __name__ == '__main__':].  Twelve of the
    thirteen calls are commented out in the source. *)
Definition main : py unit :=
  (* create_databases_erp *)
  (* create_databases_mssw *)
  (* create_databases_erp_site *)
  (* create_databases_erp_site_40a_4 *)
  (* create_databases_erp_site_40a_44 *)
  (* create_databases_erp_site_62_330 *)
  (* create_databases_erp_site_forestry *)
  (* create_databases_reg_station *)
  (* create_databases_well_inventory *)
  create_databases_well_permits ;;
  (* create_databases_wup_permitted *)
  (* create_databases_wup_surface *)
  (* create_databases_wup_wells *)
  arcpy (AddMessage (lit "\n")) ;;
  arcpy (AddWarning
           "************************************************************") ;;
  arcpy (AddWarning
           "REMINDER: Manually set feature extent to district boundary") ;;
  arcpy (AddWarning "          for new feature classes") ;;
  arcpy (AddWarning
           "REMINDER: Manually import metadata from template file geodatabase") ;;
  arcpy (AddWarning
           "************************************************************") ;;
  arcpy (AddMessage (lit "\n")).

(** The executable statements of the module, given its [__name__]. *)
Definition module_body (__name__ : string) : py unit :=
  if String.eqb __name__ "__main__" then main else Ret tt.

(* ===================================================================== *)
(** ** Vocabulary of the properties *)
(* ===================================================================== *)

(** The thirteen feature class creation functions, each with the name
    constant and the list of field specifications it uses. *)
Definition creation_functions : list (string * list tuple * py unit) :=
  [ (FC_NAME_ERP, fields_spec_erp, create_databases_erp)
  ; (FC_NAME_ERP_SITE, fields_spec_erp_site, create_databases_erp_site)
  ; (FC_NAME_ERP_SITE_40A_4, fields_spec_erp_site_40a_4,
     create_databases_erp_site_40a_4)
  ; (FC_NAME_ERP_SITE_40A_44, fields_spec_erp_site_40a_44,
     create_databases_erp_site_40a_44)
  ; (FC_NAME_ERP_SITE_62_330, fields_spec_erp_site_62_330,
     create_databases_erp_site_62_330)
  ; (FC_NAME_ERP_SITE_FORESTRY, fields_spec_erp_site_forestry,
     create_databases_erp_site_forestry)
  ; (FC_NAME_MSSW, fields_spec_mssw, create_databases_mssw)
  ; (FC_NAME_REG_STATION, fields_spec_reg_station,
     create_databases_reg_station)
  ; (FC_NAME_WI, fields_spec_well_inventory, create_databases_well_inventory)
  ; (FC_NAME_WPS, fields_spec_well_permits, create_databases_well_permits)
  ; (FC_NAME_WUP_PERMITTED, fields_spec_wup_permitted,
     create_databases_wup_permitted)
  ; (FC_NAME_WUP_SURFACE, fields_spec_wup_surface,
     create_databases_wup_surface)
  ; (FC_NAME_WUP_WELLS, fields_spec_wup_wells, create_databases_wup_wells)
  ].


(** The [AddMessage] and [AddField_management] calls that one field
    specification of nine components gives rise to. *)
Definition Adding_call (field_spec : tuple) : call :=
  AddMessage
    (format (lit "\t\tAdding {field_name}") "field_name" (nth 0 field_spec "")).

Definition AddField_call (table : string) (field_spec : tuple) : call :=
  AddField_management table
    (nth 0 field_spec "") (nth 1 field_spec "") (nth 2 field_spec "")
    (nth 3 field_spec "") (nth 4 field_spec "") (nth 5 field_spec "")
    (nth 6 field_spec "") (nth 7 field_spec "") (nth 8 field_spec "").

(** The calls that close the main block. *)
Definition reminder_calls : list call :=
  [ AddMessage (String LF "")
  ; AddWarning "************************************************************"
  ; AddWarning "REMINDER: Manually set feature extent to district boundary"
  ; AddWarning "          for new feature classes"
  ; AddWarning
      "REMINDER: Manually import metadata from template file geodatabase"
  ; AddWarning "************************************************************"
  ; AddMessage (String LF "")
  ].

(** A field specification that constrains nothing: nullable, not required,
    no domain, no precision and no scale. *)
Definition unconstrained (field_spec : tuple) : Prop :=
  nth_error field_spec 2 = Some (PStr "") /\
  nth_error field_spec 3 = Some (PStr "") /\
  nth_error field_spec 6 = Some (PBool true) /\
  nth_error field_spec 7 = Some (PStr "") /\
  nth_error field_spec 8 = Some (PStr "").

(** A program without error handling: whenever one of its calls raises,
    the program raises that very exception and does nothing else. *)
Inductive propagating {A : Type} : py A -> Prop :=
| propagating_Ret (a : A) : propagating (Ret a)
| propagating_Raise (e : exn) : propagating (Raise e)
| propagating_Vis (c : call) (k : response -> py A) :
    (forall e, k (Raised e) = Raise e) ->
    propagating (k Returned) ->
    propagating (Vis c k).

(** Every answer in a trace is a return. *)
Definition all_returned (tr : list event) : Prop :=
  Forall (fun ev => snd ev = Returned) tr.

(** The attribute indexes, by feature class: the columns indexed, with
    index names [<feature class name>__I1] and [<feature class name>__I2]. *)
Definition indexed_columns (name : string) : list string :=
  if String.eqb name FC_NAME_REG_STATION then ["FLUWID"; "LEGACY_PERMIT_NUMBER"]
  else if String.eqb name FC_NAME_WI then ["NWF_ID"; "STATE_ID"]
  else if String.eqb name FC_NAME_WPS then ["FLUWID"; "PERMIT_NUMBER"]
  else [].

Definition index_calls (name : string) : list call :=
  let fc :=
    os_path_join OUTPUT_GEODATABASE name in
  match indexed_columns name with
  | [first; second] =>
      [ AddIndex_management fc first (name ++ "__I1")
      ; AddIndex_management fc second (name ++ "__I2") ]
  | _ => []
  end.

(** The calls on which the properties of a creation function rest. *)
Definition create_call (name : string) : call :=
  CreateFeatureclass_management OUTPUT_GEODATABASE name "POINT" UTM_16N_NAD83.

Definition grant_call (name : string) : call :=
  ChangePrivileges_management
    (os_path_join OUTPUT_GEODATABASE name) "GIS_READ" "GRANT" "AS_IS".

(** [program] calls the function [f]: the calls of [f] are a block of the
    calls of [program]. *)
Definition calls_function (program f : py unit) : Prop :=
  exists before after, script program = before ++ script f ++ after.

(** What evaluation establishes about one creation function. *)
Definition script_facts (entry : string * list tuple * py unit) : Prop :=
  let '(name, specs, f) := entry in
  let fc :=
    os_path_join OUTPUT_GEODATABASE name in
  propagating f
  /\ completion f = inr tt
  /\ filter is_geodatabase_operation (script f)
     = [create_call name] ++ map (AddField_call fc) specs
       ++ filter is_AddIndex (script f) ++ [grant_call name]
  /\ filter is_CreateFeatureclass (script f) = [create_call name]
  /\ filter is_ChangePrivileges (script f) = [grant_call name]
  /\ filter is_AddIndex (script f) = index_calls name
  /\ firstn (2 * List.length specs) (skipn 3 (script f))
     = script (add_fields fc specs).

(* ===================================================================== *)
(** ** Vocabulary of further properties *)
(* ===================================================================== *)

(** The dataset a geodatabase operation works on, for the operations that
    take one: [in_table] of AddField and AddIndex, [in_dataset] of
    ChangePrivileges. *)
Definition target (c : call) : option string :=
  match c with
  | AddField_management in_table _ _ _ _ _ _ _ _ _ => Some in_table
  | AddIndex_management in_table _ _ => Some in_table
  | ChangePrivileges_management in_dataset _ _ _ => Some in_dataset
  | _ => None
  end.

Definition is_AddWarning (c : call) : bool :=
  match c with AddWarning _ => true | _ => false end.

(** The column a field specification names, and the type and the width it
    gives it. *)
Definition column_name (field_spec : tuple) : string :=
  py_str (nth 0 field_spec "").

Definition column_type (field_spec : tuple) : string :=
  py_str (nth 1 field_spec "").

Definition column_width (field_spec : tuple) : pyval :=
  nth 4 field_spec "".

(** Upper case of the ASCII letters; the geodatabase stores column names
    in upper case, and the script names indexed columns that way. *)
Definition upper_ascii (c : ascii) : ascii :=
  let n := nat_of_ascii c in
  if (97 <=? n)%nat && (n <=? 122)%nat then ascii_of_nat (n - 32) else c.

Fixpoint upper (s : string) : string :=
  match s with
  | EmptyString => EmptyString
  | String c rest => String (upper_ascii c) (upper rest)
  end.

(** No string occurs twice. *)
Fixpoint distinct (names : list string) : bool :=
  match names with
  | [] => true
  | name :: rest => negb (existsb (String.eqb name) rest) && distinct rest
  end.

(** A TEXT column has a positive integer width; a column of one of the
    other four types has the width ''. *)
Definition width_fits_type (field_spec : tuple) : bool :=
  if String.eqb (column_type field_spec) "TEXT" then
    match column_width field_spec with
    | PInt n => (0 <? n)%Z
    | _ => false
    end
  else
    existsb (String.eqb (column_type field_spec))
      ["DOUBLE"; "LONG"; "SHORT"; "DATE"]
    && match column_width field_spec with
       | PStr "" => true
       | _ => false
       end.

(** The column names of a list of specifications that start with
    [party_]. *)
Definition is_party_column (field_spec : tuple) : bool :=
  String.prefix "party_" (column_name field_spec).

(* ===================================================================== *)
(** ** Scripts of composed programs *)
(* ===================================================================== *)

Lemma script_bind {A B : Type} (p : py A) (f : A -> py B) :
  script (bind p f)
  = script p ++ match completion p with
                | inr a => script (f a)
                | inl _ => []
                end.
Proof.
  induction p as [a | e | c k IH]; simpl.
  - reflexivity.
  - reflexivity.
  - now rewrite IH.
Qed.

Lemma completion_bind {A B : Type} (p : py A) (f : A -> py B) :
  completion (bind p f)
  = match completion p with
    | inr a => completion (f a)
    | inl e => inl e
    end.
Proof.
  induction p as [a | e | c k IH]; simpl; auto.
Qed.

(* ===================================================================== *)
(** ** Programs without error handling *)
(* ===================================================================== *)

Lemma propagating_arcpy (c : call) : propagating (arcpy c).
Proof.
  apply propagating_Vis; [intros e; reflexivity | constructor].
Qed.

Lemma propagating_bind {A B : Type} (p : py A) (f : A -> py B) :
  propagating p -> (forall a, propagating (f a)) -> propagating (bind p f).
Proof.
  induction 1 as [a | e | c k Hk Hp IH]; simpl; intros Hf.
  - apply Hf.
  - constructor.
  - constructor.
    + intros e. now rewrite Hk.
    + now apply IH.
Qed.

Lemma propagating_getitem (t : tuple) (i : nat) : propagating (getitem t i).
Proof.
  unfold getitem. destruct (nth_error t i); constructor.
Qed.

Lemma propagating_for_each {A : Type} (xs : list A) (body : A -> py unit) :
  (forall x, propagating (body x)) -> propagating (for_each xs body).
Proof.
  intros Hbody. induction xs as [| x rest IH]; simpl.
  - constructor.
  - apply propagating_bind; auto.
Qed.

(** Decomposes a straight-line program into its statements. *)
Ltac propagate :=
  cbv zeta;
  repeat first
    [ apply propagating_arcpy
    | apply propagating_getitem
    | apply propagating_Ret
    | apply propagating_bind; [| intros ?; cbv beta zeta] ].

Lemma propagating_add_fields (table : string) (fields_spec : list tuple) :
  propagating (add_fields table fields_spec).
Proof.
  unfold add_fields. apply propagating_for_each. intros field_spec. propagate.
Qed.

(* ===================================================================== *)
(** ** Runs of programs without error handling *)
(* ===================================================================== *)

Section RunFacts.

Context {W : Type} (arc : platform W).

(** A call that raised is the last call of the run, and its exception is
    the outcome of the run. *)
Lemma raised_call_is_last {A : Type} (p : py A) :
  propagating p ->
  forall w tr1 c e tr2,
    trace (run arc p w) = tr1 ++ (c, Raised e) :: tr2 ->
    tr2 = [] /\ outcome (run arc p w) = inl e.
Proof.
  induction 1 as [a | e0 | c0 k Hk Hp IH]; intros w tr1 c e tr2 Htr.
  - destruct tr1; discriminate.
  - destruct tr1; discriminate.
  - simpl in *. destruct (arc c0 w) as [r w']. simpl in *.
    destruct tr1 as [| ev tr1]; simpl in Htr.
    + injection Htr as -> -> Hrest. rewrite Hk in *. simpl in *.
      split; [now symmetry | reflexivity].
    + injection Htr as _ Hrest. destruct r as [| e0].
      * now apply (IH w' tr1 c e tr2).
      * rewrite Hk in Hrest. destruct tr1; discriminate.
Qed.

(** A run that returns made exactly the calls of the script, and each of
    them returned. *)
Lemma run_returned {A : Type} (p : py A) :
  propagating p ->
  forall w a,
    outcome (run arc p w) = inr a ->
    issued (trace (run arc p w)) = script p
    /\ completion p = inr a
    /\ all_returned (trace (run arc p w)).
Proof.
  induction 1 as [a0 | e0 | c0 k Hk Hp IH]; intros w a Hout.
  - simpl in *. repeat split; [assumption | constructor].
  - discriminate.
  - simpl in *. destruct (arc c0 w) as [r w']. simpl in *.
    destruct r as [| e0].
    + destruct (IH w' a Hout) as (Hi & Hc & Hr).
      repeat split; [now rewrite Hi | assumption | now constructor].
    + rewrite Hk in Hout. discriminate.
Qed.

(** Every run makes an initial part of the script. *)
Lemma run_prefix {A : Type} (p : py A) :
  propagating p ->
  forall w, exists rest, script p = issued (trace (run arc p w)) ++ rest.
Proof.
  induction 1 as [a0 | e0 | c0 k Hk Hp IH]; intros w.
  - now exists [].
  - now exists [].
  - simpl. destruct (arc c0 w) as [r w']. simpl.
    destruct r as [| e0].
    + destruct (IH w') as [rest Hrest]. exists rest. now rewrite Hrest at 1.
    + rewrite Hk. simpl. now exists (script (k Returned)).
Qed.

Lemma run_issued_in_script {A : Type} (p : py A) :
  propagating p ->
  forall w c, In c (issued (trace (run arc p w))) -> In c (script p).
Proof.
  intros Hp w c Hin. destruct (run_prefix p Hp w) as [rest ->].
  apply in_or_app. now left.
Qed.

(** An exception reaches the caller either because the program's last
    call raised it, or because the program itself raised it after all its
    calls returned. *)
Lemma run_raised {A : Type} (p : py A) :
  propagating p ->
  forall w e,
    outcome (run arc p w) = inl e ->
    (exists tr c, trace (run arc p w) = tr ++ [(c, Raised e)])
    \/ completion p = inl e.
Proof.
  induction 1 as [a0 | e0 | c0 k Hk Hp IH]; intros w e Hout.
  - discriminate.
  - right. simpl in *. congruence.
  - simpl in *. destruct (arc c0 w) as [r w']. simpl in *.
    destruct r as [| e0].
    + destruct (IH w' e Hout) as [(tr & c & Htr) | Hc].
      * left. exists ((c0, Returned) :: tr), c. now rewrite Htr.
      * now right.
    + rewrite Hk in *. simpl in *. injection Hout as ->.
      left. now exists [], c0.
Qed.

Lemma operations_returned {A : Type} (p : py A) :
  propagating p ->
  forall w,
    returned (run arc p w) ->
    operations (trace (run arc p w)) = filter is_geodatabase_operation (script p).
Proof.
  intros Hp w [a Ha]. unfold operations.
  now destruct (run_returned p Hp w a Ha) as [-> _].
Qed.

End RunFacts.

(* ===================================================================== *)
(** ** add_fields *)
(* ===================================================================== *)

Create HintDb propagating.

#[local] Hint Resolve propagating_arcpy propagating_getitem propagating_Ret
  propagating_add_fields : propagating.

(** A tuple of at least nine components, component by component. *)
Ltac nine_components t H :=
  do 9 (destruct t as [| ? t]; [simpl in H; lia |]).

Lemma add_fields_script (table : string) (fields_spec : list tuple) :
  Forall (fun field_spec => 9 <= List.length field_spec) fields_spec ->
  script (add_fields table fields_spec)
  = flat_map (fun t => [Adding_call t; AddField_call table t]) fields_spec
  /\ completion (add_fields table fields_spec) = inr tt.
Proof.
  intros Hall. unfold add_fields.
  set (body := fun field_spec : tuple => _).
  assert (Hbody : forall t, 9 <= List.length t ->
            script (body t) = [Adding_call t; AddField_call table t]
            /\ completion (body t) = inr tt).
  { intros t Ht. nine_components t Ht. split; reflexivity. }
  clearbody body.
  induction Hall as [| t rest Ht Hrest [IHs IHc]]; simpl.
  - split; reflexivity.
  - destruct (Hbody t Ht) as [Hs Hc].
    rewrite script_bind, completion_bind, Hs, Hc, IHs, IHc.
    split; reflexivity.
Qed.


(** Whatever the specifications, add_fields has at most two calls to make
    for each. *)
Lemma add_fields_script_length (table : string) (fields_spec : list tuple) :
  List.length (script (add_fields table fields_spec))
  <= 2 * List.length fields_spec.
Proof.
  unfold add_fields.
  set (body := fun field_spec : tuple => _).
  assert (Hbody : forall t, List.length (script (body t)) <= 2).
  { intros t. do 9 (destruct t as [| ? t]; [simpl; lia |]). simpl. lia. }
  clearbody body.
  induction fields_spec as [| t rest IH]; simpl; [lia |].
  rewrite script_bind, length_app. specialize (Hbody t).
  destruct (completion (body t)); simpl; lia.
Qed.

(** The nine components of a tuple display reach [AddField_management]
    as they are. *)
Lemma AddField_call_tuple9 (table : string) (a b c d e f g h i : pyval) :
  AddField_call table (tuple9 a b c d e f g h i)
  = AddField_management table a b c d e f g h i.
Proof. reflexivity. Qed.

(* ===================================================================== *)
(** ** The creation functions, one by one *)
(* ===================================================================== *)

Ltac straight_line :=
  match goal with
  | |- propagating ?f => unfold f
  end;
  cbv zeta;
  repeat first
    [ solve [auto with propagating]
    | apply propagating_bind; [| intros ?; cbv beta zeta] ].

Ltac for_each_creation_function tac :=
  unfold creation_functions;
  repeat (apply Forall_cons; [tac |]);
  apply Forall_nil.

Lemma creation_functions_facts : Forall script_facts creation_functions.
Proof.
  for_each_creation_function
    ltac:(unfold script_facts; repeat split;
          [straight_line | vm_compute; reflexivity ..]).
Qed.

Lemma creation_function_facts (name : string) (specs : list tuple)
    (f : py unit) :
  In (name, specs, f) creation_functions -> script_facts (name, specs, f).
Proof.
  intros Hin. exact (proj1 (Forall_forall _ _) creation_functions_facts _ Hin).
Qed.

Lemma filter_narrow {A : Type} (p q : A -> bool) (l : list A) :
  (forall x, p x = true -> q x = true) ->
  filter p (filter q l) = filter p l.
Proof.
  intros Hpq. induction l as [| x l IH]; simpl; [reflexivity |].
  destruct (q x) eqn:Hq; simpl.
  - now rewrite IH.
  - destruct (p x) eqn:Hp; [| assumption].
    apply Hpq in Hp. congruence.
Qed.

Lemma filter_singleton_in {A : Type} (p : A -> bool) (l : list A) (x y : A) :
  filter p l = [y] -> In x l -> p x = true -> x = y.
Proof.
  intros Hf Hin Hp.
  assert (Hx : In x (filter p l)) by (apply filter_In; now split).
  rewrite Hf in Hx. destruct Hx as [-> | []]. reflexivity.
Qed.

Lemma filter_nil_in {A : Type} (p : A -> bool) (l : list A) (x : A) :
  filter p l = [] -> In x l -> p x = false.
Proof.
  intros Hf Hin. destruct (p x) eqn:Hp; [| reflexivity].
  assert (Hx : In x (filter p l)) by (apply filter_In; now split).
  rewrite Hf in Hx. destruct Hx.
Qed.

Lemma AddIndex_is_operation (c : call) :
  is_AddIndex c = true -> is_geodatabase_operation c = true.
Proof. now destruct c. Qed.

Lemma CreateFeatureclass_is_operation (c : call) :
  is_CreateFeatureclass c = true -> is_geodatabase_operation c = true.
Proof. now destruct c. Qed.

Lemma ChangePrivileges_is_operation (c : call) :
  is_ChangePrivileges c = true -> is_geodatabase_operation c = true.
Proof. now destruct c. Qed.

(* ===================================================================== *)
(** ** Properties of the script *)
(* ===================================================================== *)

(** A program without error handling that returns when its calls return:
    a run in which every call made returned is a run that returned. *)
Lemma run_all_returned {W A : Type} (arc : platform W) (p : py A) (a : A) :
  propagating p ->
  completion p = inr a ->
  forall w, all_returned (trace (run arc p w)) -> returned (run arc p w).
Proof.
  intros Hp Hc w Hall.
  destruct (outcome (run arc p w)) as [e | a'] eqn:Hout.
  - destruct (run_raised arc p Hp w e Hout) as [(tr & c & Htr) | Hraise].
    + rewrite Htr in Hall. apply Forall_app in Hall.
      destruct Hall as [_ Hlast]. inversion Hlast as [| ev l Hev _].
      discriminate Hev.
    + congruence.
  - now exists a'.
Qed.

(** The geodatabase operations of any run are an initial part of those of
    the script. *)
Lemma operations_initial_part {W A : Type} (arc : platform W) (p : py A) :
  propagating p ->
  forall w,
    exists rest,
      filter is_geodatabase_operation (script p)
      = operations (trace (run arc p w)) ++ rest.
Proof.
  intros Hp w. destruct (run_prefix arc p Hp w) as [rest Hrest].
  exists (filter is_geodatabase_operation rest).
  unfold operations. now rewrite Hrest at 1; rewrite filter_app.
Qed.

(** C1.  Each of the thirteen creation functions returns whenever every
    call it made returned, and no run makes geodatabase operations other
    than an initial part of this sequence: one CreateFeatureclass call for
    its point feature class first; then one AddField call per entry of its
    field list; then its AddIndex calls, if it has any; one
    ChangePrivileges call granting View to GIS_READ last.  A run that
    returns has made the whole sequence, the AddField calls by add_fields
    on the feature class, with exactly one CreateFeatureclass call and
    exactly one ChangePrivileges call. *)
Theorem creation_function_creates_adds_fields_grants
    (name : string) (specs : list tuple) (f : py unit) :
  In (name, specs, f) creation_functions ->
  forall (W : Type) (arc : platform W) (w : W),
    let calls := issued (trace (run arc f w)) in
    let ops := operations (trace (run arc f w)) in
    let fc :=
    os_path_join OUTPUT_GEODATABASE name in
    let create :=
      CreateFeatureclass_management OUTPUT_GEODATABASE name "POINT"
        UTM_16N_NAD83 in
    let grant := ChangePrivileges_management fc "GIS_READ" "GRANT" "AS_IS" in
    (all_returned (trace (run arc f w)) -> returned (run arc f w))
    /\ (exists rest,
          [create] ++ map (AddField_call fc) specs
          ++ index_calls name ++ [grant]
          = ops ++ rest)
    /\ (returned (run arc f w) ->
        ops = [create] ++ map (AddField_call fc) specs
              ++ filter is_AddIndex ops ++ [grant]
        /\ firstn (2 * List.length specs) (skipn 3 calls)
           = script (add_fields fc specs)
        /\ filter is_CreateFeatureclass ops = [create]
        /\ filter is_ChangePrivileges ops = [grant]
        /\ last ops create = grant).
Proof.
  intros Hin W arc w calls ops fc create grant.
  destruct (creation_function_facts _ _ _ Hin)
    as (Hp & Hdone & Hops & Hcr & Hcp & Hidx & Hadd).
  split; [exact (run_all_returned arc f tt Hp Hdone w) |].
  split.
  { destruct (operations_initial_part arc f Hp w) as [rest Hrest].
    exists rest. unfold ops. rewrite <- Hrest, Hops, Hidx. reflexivity. }
  intros Hret.
  assert (Hcalls : calls = script f).
  { destruct Hret as [a Ha]. now destruct (run_returned arc f Hp w a Ha). }
  assert (Hopsf : ops = filter is_geodatabase_operation (script f)).
  { now apply operations_returned. }
  assert (Hshape : ops = [create] ++ map (AddField_call fc) specs
                        ++ filter is_AddIndex ops ++ [grant]).
  { rewrite Hopsf at 2.
    rewrite (filter_narrow _ _ _ AddIndex_is_operation).
    now rewrite Hopsf. }
  repeat split.
  - exact Hshape.
  - now rewrite Hcalls.
  - rewrite Hopsf, (filter_narrow _ _ _ CreateFeatureclass_is_operation).
    exact Hcr.
  - rewrite Hopsf, (filter_narrow _ _ _ ChangePrivileges_is_operation).
    exact Hcp.
  - rewrite Hshape, !app_assoc. apply last_last.
Qed.


Lemma propagating_create_databases_well_permits :
  propagating create_databases_well_permits.
Proof. straight_line. Qed.

Lemma propagating_main : propagating main.
Proof.
  unfold main.
  apply propagating_bind;
    [apply propagating_create_databases_well_permits | intros _].
  repeat first
    [ apply propagating_arcpy
    | apply propagating_bind; [apply propagating_arcpy | intros _] ].
Qed.

Lemma module_body_main : module_body "__main__" = main.
Proof. reflexivity. Qed.

Lemma script_main :
  script main = script create_databases_well_permits ++ reminder_calls.
Proof. vm_compute. reflexivity. Qed.

Lemma create_call_in_script (name : string) (specs : list tuple)
    (f : py unit) :
  In (name, specs, f) creation_functions -> In (create_call name) (script f).
Proof.
  intros Hin.
  destruct (creation_function_facts _ _ _ Hin) as (_ & _ & _ & Hcr & _).
  assert (Hx : In (create_call name) (filter is_CreateFeatureclass (script f)))
    by (rewrite Hcr; now left).
  now apply filter_In in Hx.
Qed.

Lemma not_called_by_main (name : string) (specs : list tuple) (f : py unit) :
  In (name, specs, f) creation_functions ->
  name <> FC_NAME_WPS ->
  ~ calls_function main f.
Proof.
  intros Hin Hname (before & after & Hscript).
  assert (Hcreate : In (create_call name) (script main)).
  { rewrite Hscript. apply in_or_app. right. apply in_or_app. left.
    now apply create_call_in_script with specs. }
  assert (Hone : filter is_CreateFeatureclass (script main)
                 = [create_call FC_NAME_WPS]) by (vm_compute; reflexivity).
  apply (filter_singleton_in _ _ _ _ Hone) in Hcreate; [| reflexivity].
  injection Hcreate as Heq. contradiction.
Qed.

(** C3, as the code has it.  Run as a program, the module calls
    create_databases_well_permits and then writes the reminder to the log:
    a run that returns has made exactly the calls of that function
    followed by the reminder calls.  None of the other twelve creation
    functions is called.  Under any other module name nothing is run. *)
Theorem main_calls_create_databases_well_permits_only :
  calls_function (module_body "__main__") create_databases_well_permits
  /\ (forall (W : Type) (arc : platform W) (w : W),
        returned (run arc (module_body "__main__") w) ->
        issued (trace (run arc (module_body "__main__") w))
        = script create_databases_well_permits ++ reminder_calls)
  /\ (forall name specs f,
        In (name, specs, f) creation_functions ->
        name <> FC_NAME_WPS ->
        ~ calls_function (module_body "__main__") f)
  /\ (forall __name__ : string,
        __name__ <> "__main__" -> module_body __name__ = Ret tt).
Proof.
  rewrite module_body_main. repeat split.
  - exists [], reminder_calls. exact script_main.
  - intros W arc w [a Ha].
    destruct (run_returned arc main propagating_main w a Ha) as (Hi & _ & _).
    now rewrite Hi, script_main.
  - intros name specs f. apply not_called_by_main.
  - intros __name__ Hname. unfold module_body.
    destruct (String.eqb_spec __name__ "__main__"); [contradiction | reflexivity].
Qed.

(** C4.  The creation functions and add_fields handle no error: each is a
    program without error handling, and in every run a call that raised
    is the last call made and its exception, unchanged, is the outcome of
    the run. *)
Theorem api_errors_propagate (p : py unit) :
  (exists name specs, In (name, specs, p) creation_functions)
  \/ (exists table fields_spec, p = add_fields table fields_spec) ->
  propagating p
  /\ forall (W : Type) (arc : platform W) (w : W) tr1 c e tr2,
       trace (run arc p w) = tr1 ++ (c, Raised e) :: tr2 ->
       tr2 = [] /\ outcome (run arc p w) = inl e.
Proof.
  intros Hp.
  assert (Hprop : propagating p).
  { destruct Hp as [(name & specs & Hin) | (table & fields_spec & ->)].
    - now destruct (creation_function_facts _ _ _ Hin).
    - apply propagating_add_fields. }
  split; [exact Hprop |].
  intros W arc w tr1 c e tr2. now apply raised_call_is_last.
Qed.

(** C5.  In every run of every creation function, each CreateFeatureclass
    call creates, in the database connection OUTPUT_GEODATABASE
    (Database Connections\orcl$gis.sde), the function's feature class with
    geometry type POINT and spatial reference UTM_16N_NAD83 (factory code
    26916); a run that returns has made exactly one such call. *)
Theorem feature_classes_are_points_in_one_reference
    (name : string) (specs : list tuple) (f : py unit) :
  In (name, specs, f) creation_functions ->
  forall (W : Type) (arc : platform W) (w : W),
    (forall out_path out_name geometry_type spatial_reference,
        In (CreateFeatureclass_management
              out_path out_name geometry_type spatial_reference)
           (issued (trace (run arc f w))) ->
        out_path = OUTPUT_GEODATABASE
        /\ out_path = "Database Connections\orcl$gis.sde"
        /\ out_name = name
        /\ geometry_type = "POINT"
        /\ spatial_reference = UTM_16N_NAD83
        /\ spatial_reference = arcpy_SpatialReference 26916)
    /\ (returned (run arc f w) ->
        filter is_CreateFeatureclass (issued (trace (run arc f w)))
        = [CreateFeatureclass_management
             OUTPUT_GEODATABASE name "POINT" UTM_16N_NAD83]).
Proof.
  intros Hin W arc w.
  destruct (creation_function_facts _ _ _ Hin) as (Hp & _ & _ & Hcr & _).
  split.
  - intros out_path out_name geometry_type spatial_reference Hc.
    apply (run_issued_in_script arc f Hp) in Hc.
    apply (filter_singleton_in _ _ _ _ Hcr) in Hc; [| reflexivity].
    injection Hc as -> -> -> ->. repeat split.
  - intros [a Ha].
    destruct (run_returned arc f Hp w a Ha) as (Hi & _ & _).
    now rewrite Hi.
Qed.

(** C6.  create_databases_reg_station, create_databases_well_inventory and
    create_databases_well_permits each return whenever every call made
    returned, and a run that returns has added two attribute indexes,
    named <feature class name>__I1 and <feature class name>__I2, after the
    AddField calls and before the ChangePrivileges call: on FLUWID and
    LEGACY_PERMIT_NUMBER, on NWF_ID and STATE_ID, and on FLUWID and
    PERMIT_NUMBER.  In no run do their geodatabase operations leave this
    order.  The other ten creation functions make no AddIndex call in any
    run. *)
Theorem indexes_of_three_feature_classes :
  (forall name specs f,
      In (name, specs, f)
         [ (FC_NAME_REG_STATION, fields_spec_reg_station,
            create_databases_reg_station)
         ; (FC_NAME_WI, fields_spec_well_inventory,
            create_databases_well_inventory)
         ; (FC_NAME_WPS, fields_spec_well_permits,
            create_databases_well_permits) ] ->
      forall (W : Type) (arc : platform W) (w : W),
        let fc :=
    os_path_join OUTPUT_GEODATABASE name in
        let expected :=
          [CreateFeatureclass_management OUTPUT_GEODATABASE name "POINT"
             UTM_16N_NAD83]
          ++ map (AddField_call fc) specs
          ++ index_calls name
          ++ [ChangePrivileges_management fc "GIS_READ" "GRANT" "AS_IS"] in
        (all_returned (trace (run arc f w)) -> returned (run arc f w))
        /\ (exists rest, expected = operations (trace (run arc f w)) ++ rest)
        /\ (returned (run arc f w) ->
            operations (trace (run arc f w)) = expected
            /\ filter is_AddIndex (issued (trace (run arc f w)))
               = index_calls name))
  /\ index_calls FC_NAME_REG_STATION
     = [ AddIndex_management
           (os_path_join OUTPUT_GEODATABASE FC_NAME_REG_STATION)
           "FLUWID" "GIS.DATABASES_REG_STATION__I1"
       ; AddIndex_management
           (os_path_join OUTPUT_GEODATABASE FC_NAME_REG_STATION)
           "LEGACY_PERMIT_NUMBER" "GIS.DATABASES_REG_STATION__I2" ]
  /\ index_calls FC_NAME_WI
     = [ AddIndex_management
           (os_path_join OUTPUT_GEODATABASE FC_NAME_WI)
           "NWF_ID" "GIS.DATABASES_WELL_INVENTORY__I1"
       ; AddIndex_management
           (os_path_join OUTPUT_GEODATABASE FC_NAME_WI)
           "STATE_ID" "GIS.DATABASES_WELL_INVENTORY__I2" ]
  /\ index_calls FC_NAME_WPS
     = [ AddIndex_management
           (os_path_join OUTPUT_GEODATABASE FC_NAME_WPS)
           "FLUWID" "GIS.DATABASES_WELL_PERMITS__I1"
       ; AddIndex_management
           (os_path_join OUTPUT_GEODATABASE FC_NAME_WPS)
           "PERMIT_NUMBER" "GIS.DATABASES_WELL_PERMITS__I2" ]
  /\ (forall name specs f,
        In (name, specs, f) creation_functions ->
        name <> FC_NAME_REG_STATION ->
        name <> FC_NAME_WI ->
        name <> FC_NAME_WPS ->
        forall (W : Type) (arc : platform W) (w : W) (c : call),
          In c (issued (trace (run arc f w))) -> is_AddIndex c = false).
Proof.
  split; [| split; [| split; [| split]]]; try reflexivity.
  - intros name specs f Hthree W arc w fc expected.
    assert (Hin : In (name, specs, f) creation_functions).
    { unfold creation_functions.
      destruct Hthree as [<- | [<- | [<- | []]]];
        [do 7 right | do 8 right | do 9 right]; now left. }
    destruct (creation_function_facts _ _ _ Hin)
      as (Hp & Hdone & Hops & _ & _ & Hidx & _).
    assert (Hexpected : filter is_geodatabase_operation (script f) = expected)
      by (rewrite Hops, Hidx; reflexivity).
    split; [exact (run_all_returned arc f tt Hp Hdone w) |].
    split.
    + destruct (operations_initial_part arc f Hp w) as [rest Hrest].
      exists rest. now rewrite <- Hrest, Hexpected.
    + intros Hret. split.
      * now rewrite (operations_returned arc f Hp w Hret).
      * destruct Hret as [a Ha].
        destruct (run_returned arc f Hp w a Ha) as (-> & _ & _).
        exact Hidx.
  - intros name specs f Hin Hreg Hwi Hwps W arc w c Hc.
    destruct (creation_function_facts _ _ _ Hin)
      as (Hp & _ & _ & _ & _ & Hidx & _).
    apply (run_issued_in_script arc f Hp) in Hc.
    apply (filter_nil_in _ _ _) with (2 := Hc).
    rewrite Hidx. unfold index_calls, indexed_columns.
    destruct (String.eqb_spec name FC_NAME_REG_STATION); [contradiction |].
    destruct (String.eqb_spec name FC_NAME_WI); [contradiction |].
    destruct (String.eqb_spec name FC_NAME_WPS); [contradiction |].
    reflexivity.
Qed.

Section Privileges.

(** The platform's store of privileges and its [ChangePrivileges], known
    only by what the tool promises: AS_IS for Edit leaves every edit
    privilege as it is, and a change for one user leaves the view
    privileges of the other users as they are. *)
Variable P : Type.
Variable change : string -> string -> string -> string -> P -> P.
Variables may_view may_edit : P -> string -> string -> bool.

Hypothesis as_is_keeps_edit :
  forall in_dataset user View privs d u,
    may_edit (change in_dataset user View "AS_IS" privs) d u
    = may_edit privs d u.

Hypothesis other_users_keep_view :
  forall in_dataset user View Edit privs d u,
    u <> user ->
    may_view (change in_dataset user View Edit privs) d u = may_view privs d u.

Lemma privileges_frame (calls : list call) :
  (forall c, In c calls -> is_ChangePrivileges c = true ->
             exists in_dataset View,
               c = ChangePrivileges_management in_dataset "GIS_READ" View
                     "AS_IS") ->
  forall privs d u,
    may_edit (privileges_after change calls privs) d u = may_edit privs d u
    /\ (u <> "GIS_READ" ->
        may_view (privileges_after change calls privs) d u
        = may_view privs d u).
Proof.
  unfold privileges_after.
  induction calls as [| c calls IH]; intros Hcalls privs d u; simpl.
  - split; reflexivity.
  - assert (Hrest : forall c', In c' calls -> is_ChangePrivileges c' = true ->
              exists in_dataset View,
                c' = ChangePrivileges_management in_dataset "GIS_READ" View
                       "AS_IS")
      by (intros c' Hc'; apply Hcalls; now right).
    destruct c; try exact (IH Hrest privs d u).
    destruct (Hcalls _ (or_introl eq_refl) eq_refl) as (ds & v & Heq).
    injection Heq as -> -> -> ->.
    destruct (IH Hrest (change ds "GIS_READ" v "AS_IS" privs) d u) as [He Hv].
    split.
    + now rewrite He, as_is_keeps_edit.
    + intros Hu. now rewrite (Hv Hu), other_users_keep_view.
Qed.

(** C7.  In every run of every creation function, each ChangePrivileges
    call names the function's feature class and user GIS_READ with View
    GRANT and Edit AS_IS, and a run that returns has made exactly one.  On
    a platform where AS_IS leaves the edit privilege as it is and a change
    for one user does not touch the view privilege of another, the
    privilege changes of the run leave every edit privilege, and every
    view privilege of a user other than GIS_READ, as they were. *)
Theorem grants_change_view_of_GIS_READ_only
    (name : string) (specs : list tuple) (f : py unit) :
  In (name, specs, f) creation_functions ->
  forall (W : Type) (arc : platform W) (w : W),
    let calls := issued (trace (run arc f w)) in
    let grant :=
      ChangePrivileges_management
        (os_path_join OUTPUT_GEODATABASE name) "GIS_READ" "GRANT" "AS_IS" in
    (forall c, In c calls -> is_ChangePrivileges c = true -> c = grant)
    /\ (returned (run arc f w) -> filter is_ChangePrivileges calls = [grant])
    /\ (forall privs d u,
          may_edit (privileges_after change calls privs) d u
          = may_edit privs d u
          /\ (u <> "GIS_READ" ->
              may_view (privileges_after change calls privs) d u
              = may_view privs d u)).
Proof.
  intros Hin W arc w calls grant.
  destruct (creation_function_facts _ _ _ Hin)
    as (Hp & _ & _ & _ & Hcp & _).
  assert (Hgrant : forall c, In c calls -> is_ChangePrivileges c = true ->
                             c = grant).
  { intros c Hc His. apply (run_issued_in_script arc f Hp) in Hc.
    exact (filter_singleton_in _ _ _ _ Hcp Hc His). }
  repeat split.
  - exact Hgrant.
  - intros [a Ha]. unfold calls.
    destruct (run_returned arc f Hp w a Ha) as (-> & _ & _). exact Hcp.
  - apply privileges_frame. intros c Hc His.
    rewrite (Hgrant c Hc His). now eexists _, _.
  - apply privileges_frame. intros c Hc His.
    rewrite (Hgrant c Hc His). now eexists _, _.
Qed.

End Privileges.

(** C8.  The calls of a creation function, and of the module run as a
    program, are one constant sequence, its script, fixed by the text of
    the function: every run makes an initial part of the script, a run
    that returns makes all of it, and so any two runs that return, on
    whatever platforms and from whatever states, make the same calls with
    the same arguments.  A response of the platform can only cut a run
    short: any two runs whatever agree on every call that both make. *)
Theorem emitted_calls_are_constant (f : py unit) :
  In f (module_body "__main__" :: map snd creation_functions) ->
  propagating f
  /\ forall (W1 W2 : Type) (arc1 : platform W1) (arc2 : platform W2)
            (w1 : W1) (w2 : W2),
       let r1 := run arc1 f w1 in
       let r2 := run arc2 f w2 in
       (exists rest, script f = issued (trace r1) ++ rest)
       /\ (returned r1 -> issued (trace r1) = script f)
       /\ (returned r1 -> returned r2 ->
           issued (trace r1) = issued (trace r2)
           /\ operations (trace r1) = operations (trace r2))
       /\ (forall i c1 c2,
             nth_error (issued (trace r1)) i = Some c1 ->
             nth_error (issued (trace r2)) i = Some c2 ->
             c1 = c2).
Proof.
  intros Hf.
  assert (Hp : propagating f).
  { destruct Hf as [<- | Hf].
    - rewrite module_body_main. exact propagating_main.
    - apply in_map_iff in Hf. destruct Hf as ([[name specs] g] & <- & Hin).
      now destruct (creation_function_facts _ _ _ Hin). }
  split; [exact Hp |].
  intros W1 W2 arc1 arc2 w1 w2 r1 r2.
  assert (Hall : forall (W : Type) (arc : platform W) (w : W),
            returned (run arc f w) -> issued (trace (run arc f w)) = script f).
  { intros W arc w [a Ha]. now destruct (run_returned arc f Hp w a Ha). }
  repeat split.
  - apply run_prefix. exact Hp.
  - apply Hall.
  - unfold r1, r2. now rewrite !Hall.
  - unfold operations, r1, r2. now rewrite !Hall.
  - intros i c1 c2 H1 H2.
    destruct (run_prefix arc1 f Hp w1) as [rest1 Hrest1].
    destruct (run_prefix arc2 f Hp w2) as [rest2 Hrest2].
    assert (Hs1 : nth_error (script f) i = Some c1).
    { rewrite Hrest1, nth_error_app1; [exact H1 |].
      apply nth_error_Some. unfold r1 in H1. congruence. }
    assert (Hs2 : nth_error (script f) i = Some c2).
    { rewrite Hrest2, nth_error_app1; [exact H2 |].
      apply nth_error_Some. unfold r2 in H2. congruence. }
    congruence.
Qed.

(** C9.  Every field specification at every call site of add_fields has
    nine components.  When every specification has at least nine, each of
    the accesses at positions 0 to 8 is in bounds, add_fields makes two
    calls per specification and returns when they return, and the only
    exception a run can end with is the one raised by its last call.  On
    every list of specifications and every platform, a run of add_fields
    ends after at most two calls per specification. *)
Theorem add_fields_indexing_in_bounds :
  map (fun entry => snd (fst entry)) creation_functions = all_fields_spec
  /\ Forall (Forall (fun field_spec => List.length field_spec = 9))
       all_fields_spec
  /\ (forall (table : string) (fields_spec : list tuple),
       Forall (fun field_spec => 9 <= List.length field_spec) fields_spec ->
       (forall field_spec i,
           In field_spec fields_spec -> i < 9 ->
           exists v, nth_error field_spec i = Some v
                     /\ getitem field_spec i = Ret v)
       /\ completion (add_fields table fields_spec) = inr tt
       /\ List.length (script (add_fields table fields_spec))
          = 2 * List.length fields_spec
       /\ forall (W : Type) (arc : platform W) (w : W),
            let r := run arc (add_fields table fields_spec) w in
            returned r
            \/ exists tr c e,
                 trace r = tr ++ [(c, Raised e)] /\ outcome r = inl e)
  /\ forall (table : string) (fields_spec : list tuple)
            (W : Type) (arc : platform W) (w : W),
       List.length (trace (run arc (add_fields table fields_spec) w))
       <= 2 * List.length fields_spec.
Proof.
  split; [reflexivity |].
  split; [unfold all_fields_spec; repeat constructor |].
  split.
  2: { intros table fields_spec W arc w.
       destruct (run_prefix arc _ (propagating_add_fields table fields_spec) w)
         as [rest Hrest].
       pose proof (add_fields_script_length table fields_spec) as Hbound.
       rewrite Hrest, length_app in Hbound.
       unfold issued in Hbound. rewrite length_map in Hbound.
       eapply Nat.le_trans; [apply Nat.le_add_r | exact Hbound]. }
  intros table fields_spec Hlen.
  destruct (add_fields_script table fields_spec Hlen) as [Hs Hc].
  repeat split.
  - intros field_spec i Hin Hi.
    assert (Hnine : 9 <= List.length field_spec)
      by exact (proj1 (Forall_forall _ _) Hlen _ Hin).
    unfold getitem. destruct (nth_error field_spec i) as [v |] eqn:Hnth.
    + now exists v.
    + apply nth_error_None in Hnth. lia.
  - exact Hc.
  - rewrite Hs. clear. induction fields_spec as [| t rest IH]; simpl; lia.
  - intros W arc w r.
    destruct (outcome r) as [e | a] eqn:Hout.
    + right.
      destruct (run_raised arc _ (propagating_add_fields table fields_spec)
                  w e Hout) as [(tr & c & Htr) | Hraise].
      * now exists tr, c, e.
      * congruence.
    + left. now exists a.
Qed.

(** C10.  In all thirteen lists of field specifications every entry is
    nullable (True), not required (''), without domain (''), and without
    precision ('') and scale (''). *)
Theorem every_field_is_unconstrained :
  map (fun entry => snd (fst entry)) creation_functions = all_fields_spec
  /\ List.length all_fields_spec = 13
  /\ Forall (Forall unconstrained) all_fields_spec.
Proof.
  split; [reflexivity |].
  split; [reflexivity |].
  unfold all_fields_spec, unconstrained. repeat constructor.
Qed.

(* ===================================================================== *)
(** ** Further properties of add_fields *)
(* ===================================================================== *)

(** A run of [p] followed by [f]: the run of [p], and when it returned,
    the run of [f] from the state it left. *)
Lemma run_bind {W A B : Type} (arc : platform W) (p : py A) (f : A -> py B)
    (w : W) :
  run arc (bind p f) w
  = match outcome (run arc p w) with
    | inr a =>
        let r2 := run arc (f a) (final (run arc p w)) in
        {| trace := trace (run arc p w) ++ trace r2;
           outcome := outcome r2;
           final := final r2 |}
    | inl e =>
        {| trace := trace (run arc p w);
           outcome := inl e;
           final := final (run arc p w) |}
    end.
Proof.
  revert w. induction p as [a | e | c k IH]; intros w; simpl.
  - now destruct (run arc (f a) w).
  - reflexivity.
  - destruct (arc c w) as [r w']. rewrite IH. simpl.
    now destruct (outcome (run arc (k r) w')).
Qed.

(** In a run of a program without error handling, every call but the last
    returned. *)
Lemma all_but_last_returned {W A : Type} (arc : platform W) (p : py A) :
  propagating p ->
  forall w tr1 ev tr2,
    trace (run arc p w) = tr1 ++ ev :: tr2 -> all_returned tr1.
Proof.
  intros Hp w tr1 ev tr2 Htr. apply Forall_forall. intros [c r] Hin.
  destruct r as [| e]; [reflexivity |].
  destruct (in_split _ _ Hin) as (a & b & ->).
  rewrite <- app_assoc in Htr. simpl in Htr.
  destruct (raised_call_is_last arc p Hp w _ _ _ _ Htr) as [Hnil _].
  destruct b; discriminate.
Qed.

Lemma append_empty (s : string) : (s ++ "")%string = s.
Proof. induction s as [| c s IH]; simpl; [reflexivity | now rewrite IH]. Qed.

Lemma Adding_call_of_name (name : string) (rest : tuple) :
  Adding_call (PStr name :: rest)
  = AddMessage (String TAB (String TAB ("Adding " ++ name))).
Proof.
  unfold Adding_call, format. cbn. now rewrite append_empty.
Qed.

(** What is made of a list of specifications up to some call of the
    script: the AddField calls of an initial part of the list. *)
Lemma operations_of_prefix (table : string) (fields_spec : list tuple) :
  forall made rest,
    flat_map (fun t => [Adding_call t; AddField_call table t]) fields_spec
    = made ++ rest ->
    exists n,
      n <= List.length fields_spec
      /\ filter is_geodatabase_operation made
         = map (AddField_call table) (firstn n fields_spec).
Proof.
  induction fields_spec as [| t specs IH]; intros made rest Hsplit.
  - simpl in Hsplit. symmetry in Hsplit. apply app_eq_nil in Hsplit.
    destruct Hsplit as [-> _]. exists 0. split; [lia | reflexivity].
  - simpl in Hsplit. destruct made as [| a [| b made]].
    + exists 0. split; [simpl; lia | reflexivity].
    + injection Hsplit as <- _. exists 0. split; [simpl; lia | reflexivity].
    + injection Hsplit as <- <- Hsplit.
      destruct (IH made rest Hsplit) as (n & Hn & Hops).
      exists (S n). split; [simpl; lia |].
      simpl. now rewrite Hops.
Qed.

(** X1.  add_fields on a concatenated list is add_fields on the first
    part and then, if that returned, add_fields on the second part from
    the state the first left; if the first part ended with an exception,
    nothing of the second part is done. *)
Theorem add_fields_app (table : string) (xs ys : list tuple)
    (W : Type) (arc : platform W) (w : W) :
  let r1 := run arc (add_fields table xs) w in
  let r := run arc (add_fields table (xs ++ ys)) w in
  match outcome r1 with
  | inr _ =>
      let r2 := run arc (add_fields table ys) (final r1) in
      trace r = trace r1 ++ trace r2
      /\ outcome r = outcome r2
      /\ final r = final r2
  | inl e =>
      trace r = trace r1 /\ outcome r = inl e /\ final r = final r1
  end.
Proof.
  unfold add_fields.
  set (body := fun field_spec : tuple => _). clearbody body.
  revert w. induction xs as [| x xs IH]; intros w; simpl.
  - repeat split.
  - rewrite !run_bind.
    destruct (outcome (run arc (body x) w)) as [e | []]; simpl.
    + repeat split.
    + specialize (IH (final (run arc (body x) w))). simpl in IH.
      destruct (outcome (run arc (for_each xs body)
                           (final (run arc (body x) w)))); simpl.
      * destruct IH as (-> & -> & ->). repeat split.
      * destruct IH as (-> & -> & ->). rewrite app_assoc. repeat split.
Qed.

(** X2.  When the first specification with fewer than nine components
    comes after specifications with at least nine, add_fields adds the
    fields before it, logs the message for it unless it is the empty
    tuple, and raises IndexError: no field is added for it or for any
    specification after it, and no run returns. *)
Theorem add_fields_short_specification
    (table : string) (good : list tuple) (bad : tuple) (rest : list tuple) :
  Forall (fun field_spec => 9 <= List.length field_spec) good ->
  List.length bad < 9 ->
  script (add_fields table (good ++ bad :: rest))
  = flat_map (fun t => [Adding_call t; AddField_call table t]) good
    ++ match bad with
       | [] => []
       | _ :: _ => [Adding_call bad]
       end
  /\ completion (add_fields table (good ++ bad :: rest)) = inl IndexError
  /\ forall (W : Type) (arc : platform W) (w : W),
       ~ returned (run arc (add_fields table (good ++ bad :: rest)) w).
Proof.
  intros Hgood Hbad.
  assert (Hscript :
    script (add_fields table (good ++ bad :: rest))
    = flat_map (fun t => [Adding_call t; AddField_call table t]) good
      ++ match bad with
         | [] => []
         | _ :: _ => [Adding_call bad]
         end
    /\ completion (add_fields table (good ++ bad :: rest)) = inl IndexError).
  { unfold add_fields.
    set (body := fun field_spec : tuple => _).
    assert (Hbody : forall t, 9 <= List.length t ->
              script (body t) = [Adding_call t; AddField_call table t]
              /\ completion (body t) = inr tt).
    { intros t Ht. nine_components t Ht. split; reflexivity. }
    assert (Hshort :
      script (body bad) = match bad with
                          | [] => []
                          | _ :: _ => [Adding_call bad]
                          end
      /\ completion (body bad) = inl IndexError).
    { do 9 (destruct bad as [| ? bad]; [split; reflexivity |]).
      simpl in Hbad. lia. }
    clearbody body.
    induction Hgood as [| t good Ht Hgood [IHs IHc]]; simpl.
    - destruct Hshort as [Hs Hc].
      rewrite script_bind, completion_bind, Hs, Hc, app_nil_r.
      split; reflexivity.
    - destruct (Hbody t Ht) as [Hs Hc].
      rewrite script_bind, completion_bind, Hs, Hc, IHs, IHc.
      split; reflexivity. }
  destruct Hscript as [Hs Hc]. repeat split; [exact Hs | exact Hc |].
  intros W arc w [a Ha].
  destruct (run_returned arc _ (propagating_add_fields _ _) w a Ha)
    as (_ & Hdone & _).
  congruence.
Qed.

(** X3.  add_fields reads the first nine components of a specification
    and nothing beyond them: cutting every specification of at least nine
    components down to its first nine gives the same program, and so the
    same run on every platform. *)
Theorem add_fields_ignores_further_components
    (table : string) (fields_spec : list tuple) :
  Forall (fun field_spec => 9 <= List.length field_spec) fields_spec ->
  add_fields table (map (firstn 9) fields_spec) = add_fields table fields_spec
  /\ forall (W : Type) (arc : platform W) (w : W),
       run arc (add_fields table (map (firstn 9) fields_spec)) w
       = run arc (add_fields table fields_spec) w.
Proof.
  intros Hlen.
  assert (Heq : add_fields table (map (firstn 9) fields_spec)
                = add_fields table fields_spec).
  { unfold add_fields.
    set (body := fun field_spec : tuple => _).
    assert (Hbody : forall t, 9 <= List.length t -> body (firstn 9 t) = body t).
    { intros t Ht. nine_components t Ht. reflexivity. }
    clearbody body.
    induction Hlen as [| t specs Ht Hspecs IH]; cbn [map for_each].
    - reflexivity.
    - now rewrite (Hbody t Ht), IH. }
  split; [exact Heq |].
  intros W arc w. now rewrite Heq.
Qed.

(** X4.  In every run of add_fields on specifications of at least nine
    components, also one that a raising call ends, the AddField calls made
    are those of an initial part of the list, in list order: no
    specification is skipped and none is repeated. *)
Theorem add_fields_adds_an_initial_part
    (table : string) (fields_spec : list tuple) :
  Forall (fun field_spec => 9 <= List.length field_spec) fields_spec ->
  forall (W : Type) (arc : platform W) (w : W),
    exists n,
      n <= List.length fields_spec
      /\ operations (trace (run arc (add_fields table fields_spec) w))
         = map (AddField_call table) (firstn n fields_spec).
Proof.
  intros Hlen W arc w.
  destruct (add_fields_script table fields_spec Hlen) as [Hs _].
  destruct (run_prefix arc _ (propagating_add_fields table fields_spec) w)
    as [rest Hrest].
  rewrite Hs in Hrest.
  exact (operations_of_prefix table fields_spec _ _ Hrest).
Qed.

(** X5.  For specifications of at least nine components whose first
    component is a string, a run of add_fields that returns has logged,
    in list order, one message per specification: two tabs, then
    "Adding ", then the field name. *)
Theorem add_fields_logs_field_names
    (table : string) (fields_spec : list tuple) (names : list string) :
  Forall2 (fun field_spec name =>
             9 <= List.length field_spec
             /\ nth_error field_spec 0 = Some (PStr name))
          fields_spec names ->
  forall (W : Type) (arc : platform W) (w : W),
    returned (run arc (add_fields table fields_spec) w) ->
    filter (fun c => negb (is_geodatabase_operation c))
      (issued (trace (run arc (add_fields table fields_spec) w)))
    = map (fun name => AddMessage (String TAB (String TAB ("Adding " ++ name))))
        names.
Proof.
  intros Hnames W arc w [a Ha].
  assert (Hlen : Forall (fun t => 9 <= List.length t) fields_spec).
  { clear -Hnames. induction Hnames as [| t n specs names [Ht _] _ IH];
      constructor; assumption. }
  destruct (add_fields_script table fields_spec Hlen) as [Hs _].
  destruct (run_returned arc _ (propagating_add_fields table fields_spec) w a Ha)
    as (-> & _ & _).
  rewrite Hs. clear -Hnames.
  induction Hnames as [| t n specs names [_ Ht] _ IH]; simpl.
  - reflexivity.
  - destruct t as [| v t]; [discriminate |].
    injection Ht as ->. now rewrite IH, Adding_call_of_name.
Qed.

(* ===================================================================== *)
(** ** Further properties of the creation functions *)
(* ===================================================================== *)

Lemma distinct_NoDup (names : list string) :
  distinct names = true -> NoDup names.
Proof.
  induction names as [| name rest IH]; simpl; intros H.
  - constructor.
  - apply andb_prop in H. destruct H as [Hnot Hrest].
    constructor; [| now apply IH].
    intros Hin. apply negb_true_iff in Hnot.
    assert (Hex : existsb (String.eqb name) rest = true).
    { apply existsb_exists. exists name. split; [assumption |].
      apply String.eqb_refl. }
    congruence.
Qed.

Lemma creation_functions_end_with_grant :
  Forall (fun entry : string * list tuple * py unit =>
            last (script (snd entry)) (AddMessage "")
            = grant_call (fst (fst entry)))
    creation_functions.
Proof.
  for_each_creation_function ltac:(vm_compute; reflexivity).
Qed.

Lemma creation_functions_index_declared_columns :
  Forall (fun entry : string * list tuple * py unit =>
            forallb
              (fun column =>
                 existsb
                   (fun t => String.eqb (upper (column_name t)) column)
                   (snd (fst entry)))
              (indexed_columns (fst (fst entry)))
            = true)
    creation_functions.
Proof.
  for_each_creation_function ltac:(vm_compute; reflexivity).
Qed.

Lemma in_index_calls (name : string) (c : call) :
  In c (index_calls name) ->
  exists column index_name,
    c = AddIndex_management (os_path_join OUTPUT_GEODATABASE name)
          column index_name
    /\ In column (indexed_columns name).
Proof.
  unfold index_calls.
  destruct (indexed_columns name) as [| a [| b [| ? ?]]]; simpl;
    try contradiction.
  intros [<- | [<- | []]]; eexists _, _; split; try reflexivity; auto.
Qed.

(** X6.  In every run of a creation function, every geodatabase operation
    is either the CreateFeatureclass call for the function's feature class
    or works on that feature class, at the path os.path.join gives for the
    output geodatabase and the function's name constant. *)
Theorem creation_function_works_on_its_feature_class
    (name : string) (specs : list tuple) (f : py unit) :
  In (name, specs, f) creation_functions ->
  forall (W : Type) (arc : platform W) (w : W) (c : call),
    In c (issued (trace (run arc f w))) ->
    is_geodatabase_operation c = true ->
    c = CreateFeatureclass_management OUTPUT_GEODATABASE name "POINT"
          UTM_16N_NAD83
    \/ target c = Some (os_path_join OUTPUT_GEODATABASE name).
Proof.
  intros Hin W arc w c Hc Hop.
  destruct (creation_function_facts _ _ _ Hin)
    as (Hp & _ & Hops & _ & _ & Hidx & _).
  apply (run_issued_in_script arc f Hp) in Hc.
  assert (Hc' : In c (filter is_geodatabase_operation (script f)))
    by (apply filter_In; now split).
  rewrite Hops, Hidx in Hc'.
  apply in_app_or in Hc'. destruct Hc' as [[<- | []] | Hc']; [now left |].
  right.
  apply in_app_or in Hc'. destruct Hc' as [Hc' | Hc'].
  - apply in_map_iff in Hc'. now destruct Hc' as (t & <- & _).
  - apply in_app_or in Hc'. destruct Hc' as [Hc' | [<- | []]].
    + apply in_index_calls in Hc'. now destruct Hc' as (? & ? & -> & _).
    + reflexivity.
Qed.

(** X7.  The thirteen creation functions create thirteen different
    feature classes: no two of the name constants are equal, and each
    begins with GIS.DATABASES_. *)
Theorem feature_class_names_are_distinct :
  List.length creation_functions = 13
  /\ NoDup (map (fun entry => fst (fst entry)) creation_functions)
  /\ Forall (fun entry : string * list tuple * py unit =>
               String.prefix "GIS.DATABASES_" (fst (fst entry)) = true)
       creation_functions.
Proof.
  split; [reflexivity |].
  split; [apply distinct_NoDup; vm_compute; reflexivity |].
  for_each_creation_function ltac:(reflexivity).
Qed.

(** X8.  Within each of the thirteen lists of field specifications no
    column name occurs twice, also when letter case is ignored. *)
Theorem column_names_are_distinct :
  Forall (fun fields_spec =>
            NoDup (map (fun t => upper (column_name t)) fields_spec)
            /\ NoDup (map column_name fields_spec))
    all_fields_spec.
Proof.
  unfold all_fields_spec.
  repeat (apply Forall_cons;
          [split; apply distinct_NoDup; vm_compute; reflexivity |]).
  apply Forall_nil.
Qed.

(** X9.  Every AddIndex call made in a run of a creation function indexes
    a column that the function's field list declares: the column named in
    the call is the upper-case form of the name of one of the
    specifications. *)
Theorem indexed_columns_are_declared
    (name : string) (specs : list tuple) (f : py unit) :
  In (name, specs, f) creation_functions ->
  forall (W : Type) (arc : platform W) (w : W) in_table column index_name,
    In (AddIndex_management in_table column index_name)
       (issued (trace (run arc f w))) ->
    exists field_spec,
      In field_spec specs /\ upper (column_name field_spec) = column.
Proof.
  intros Hin W arc w in_table column index_name Hc.
  destruct (creation_function_facts _ _ _ Hin)
    as (Hp & _ & _ & _ & _ & Hidx & _).
  apply (run_issued_in_script arc f Hp) in Hc.
  assert (Hc' : In (AddIndex_management in_table column index_name)
                   (filter is_AddIndex (script f)))
    by (apply filter_In; now split).
  rewrite Hidx in Hc'. apply in_index_calls in Hc'.
  destruct Hc' as (col & idx & Heq & Hcol). injection Heq as _ -> _.
  pose proof (proj1 (Forall_forall _ _)
                creation_functions_index_declared_columns _ Hin) as Hdecl.
  simpl in Hdecl.
  pose proof (proj1 (forallb_forall _ _) Hdecl _ Hcol) as Hex.
  apply existsb_exists in Hex. destruct Hex as (t & Ht & Heq).
  exists t. split; [assumption | now apply String.eqb_eq].
Qed.

(** X10.  In all thirteen lists the type of every column is TEXT, DOUBLE,
    LONG, SHORT or DATE; every TEXT column has a positive integer width,
    and every other column has the width ''. *)
Theorem column_widths_fit_types :
  Forall (Forall (fun field_spec => width_fits_type field_spec = true))
    all_fields_spec.
Proof.
  unfold all_fields_spec. repeat constructor.
Qed.

(** X11.  The four feature classes for subsets of the ERP sites have one
    and the same list of field specifications: the list of
    GIS.DATABASES_ERP_SITE without its party_ columns, in the same
    order. *)
Theorem erp_site_subsets_share_fields :
  fields_spec_erp_site_40a_4
  = filter (fun t => negb (is_party_column t)) fields_spec_erp_site
  /\ fields_spec_erp_site_40a_44 = fields_spec_erp_site_40a_4
  /\ fields_spec_erp_site_62_330 = fields_spec_erp_site_40a_4
  /\ fields_spec_erp_site_forestry = fields_spec_erp_site_40a_4
  /\ map column_name (filter is_party_column fields_spec_erp_site)
     = ["party_role"; "party_company_name"; "party_first_name";
        "party_last_name"].
Proof.
  repeat split.
Qed.

(** X12.  When the CreateFeatureclass call of a creation function raises,
    that call is the only geodatabase operation of the run, and its
    exception is the outcome: no field is added, no index is created and
    no privilege is granted. *)
Theorem failed_creation_ends_the_function
    (name : string) (specs : list tuple) (f : py unit) :
  In (name, specs, f) creation_functions ->
  forall (W : Type) (arc : platform W) (w : W) (e : exn),
    In (CreateFeatureclass_management OUTPUT_GEODATABASE name "POINT"
          UTM_16N_NAD83, Raised e)
       (trace (run arc f w)) ->
    operations (trace (run arc f w))
    = [CreateFeatureclass_management OUTPUT_GEODATABASE name "POINT"
         UTM_16N_NAD83]
    /\ outcome (run arc f w) = inl e.
Proof.
  intros Hin W arc w e Hev.
  destruct (creation_function_facts _ _ _ Hin)
    as (Hp & _ & Hops & Hcr & _).
  destruct (in_split _ _ Hev) as (tr1 & tr2 & Htr).
  destruct (raised_call_is_last arc f Hp w _ _ _ _ Htr) as [-> Hout].
  split; [| exact Hout].
  destruct (run_prefix arc f Hp w) as [rest Hrest].
  unfold operations. rewrite Htr in *. unfold issued in *.
  rewrite map_app in *. simpl in *.
  rewrite Hrest, <- app_assoc in Hcr, Hops. simpl in Hcr, Hops.
  rewrite filter_app in Hcr, Hops |- *. simpl in Hcr, Hops |- *.
  assert (Hnone : filter is_CreateFeatureclass (map fst tr1) = []).
  { destruct (filter is_CreateFeatureclass (map fst tr1)) as [| x l];
      [reflexivity |].
    injection Hcr as _ Hcr. destruct l; discriminate. }
  destruct (filter is_geodatabase_operation (map fst tr1)) as [| x l] eqn:Hx.
  - reflexivity.
  - injection Hops as -> _.
    assert (Hin1 : In (create_call name)
                      (filter is_geodatabase_operation (map fst tr1)))
      by (rewrite Hx; now left).
    apply filter_In in Hin1. destruct Hin1 as [Hin1 _].
    pose proof (filter_nil_in _ _ _ Hnone Hin1). discriminate.
Qed.

(** X13.  In a run of a creation function in which the ChangePrivileges
    call was made, every call of the function was made and every call
    before the ChangePrivileges call returned: privileges are granted on
    a feature class that has all its fields and indexes. *)
Theorem grant_comes_after_everything_else
    (name : string) (specs : list tuple) (f : py unit) :
  In (name, specs, f) creation_functions ->
  forall (W : Type) (arc : platform W) (w : W),
    let fc := os_path_join OUTPUT_GEODATABASE name in
    let grant := ChangePrivileges_management fc "GIS_READ" "GRANT" "AS_IS" in
    In grant (issued (trace (run arc f w))) ->
    issued (trace (run arc f w)) = script f
    /\ operations (trace (run arc f w))
       = [CreateFeatureclass_management OUTPUT_GEODATABASE name "POINT"
            UTM_16N_NAD83]
         ++ map (AddField_call fc) specs ++ index_calls name ++ [grant]
    /\ exists before answer,
         trace (run arc f w) = before ++ [(grant, answer)]
         /\ all_returned before.
Proof.
  intros Hin W arc w fc grant Hgrant.
  destruct (creation_function_facts _ _ _ Hin)
    as (Hp & _ & Hops & _ & Hcp & Hidx & _).
  pose proof (proj1 (Forall_forall _ _)
                creation_functions_end_with_grant _ Hin) as Hlast.
  simpl in Hlast.
  destruct (run_prefix arc f Hp w) as [rest Hrest].
  assert (Hnil : rest = []).
  { destruct rest as [| x rest']; [reflexivity | exfalso].
    destruct (exists_last (l := x :: rest') ltac:(discriminate))
      as (rest'' & y & Hy).
    rewrite Hy in Hrest. rewrite Hrest, app_assoc, last_last in Hlast.
    rewrite Hrest, !filter_app in Hcp. rewrite Hlast in Hcp. simpl in Hcp.
    assert (Hg : In grant (filter is_ChangePrivileges
                             (issued (trace (run arc f w)))))
      by (apply filter_In; now split).
    destruct (filter is_ChangePrivileges (issued (trace (run arc f w))))
      as [| g l]; [destruct Hg |].
    injection Hcp as _ Hcp. apply app_eq_nil in Hcp. destruct Hcp as [_ Hcp].
    apply app_eq_nil in Hcp. destruct Hcp as [_ Hcp]. discriminate. }
  subst rest. rewrite app_nil_r in Hrest.
  assert (Hissued : issued (trace (run arc f w)) = script f) by now symmetry.
  repeat split.
  - exact Hissued.
  - unfold operations. now rewrite Hissued, Hops, Hidx.
  - destruct (trace (run arc f w)) as [| ev tr] eqn:Htr;
      [destruct Hgrant |].
    destruct (exists_last (l := ev :: tr) ltac:(discriminate))
      as (before & [c answer] & Hlast').
    rewrite Hlast' in Hissued. unfold issued in Hissued.
    rewrite map_app in Hissued. simpl in Hissued.
    rewrite <- Hissued, last_last in Hlast. subst c.
    exists before, answer. split; [exact Hlast' |].
    apply (all_but_last_returned arc f Hp w before (grant, answer) []).
    now rewrite Htr.
Qed.

(** X14.  Run as a program, the script logs its reminder warnings only
    after create_databases_well_permits has made all its calls and every
    one of them returned. *)
Theorem reminder_follows_complete_creation :
  forall (W : Type) (arc : platform W) (w : W) (message : string),
    In (AddWarning message)
       (issued (trace (run arc (module_body "__main__") w))) ->
    exists creation tail,
      trace (run arc (module_body "__main__") w) = creation ++ tail
      /\ issued creation = script create_databases_well_permits
      /\ all_returned creation.
Proof.
  rewrite module_body_main. intros W arc w message Hwarn.
  assert (Hnone : filter is_AddWarning (script create_databases_well_permits)
                  = []) by (vm_compute; reflexivity).
  destruct (run_prefix arc main propagating_main w) as [rest Hrest].
  rewrite script_main in Hrest. symmetry in Hrest.
  apply app_eq_app in Hrest.
  destruct Hrest as (l & [[Hcalls _] | [Hcalls _]]).
  - apply map_eq_app in Hcalls.
    destruct Hcalls as (creation & tail & Htr & Hcreation & Htail).
    exists creation, tail. repeat split; [exact Htr | exact Hcreation |].
    destruct tail as [| ev tail].
    + exfalso. simpl in Htail. subst l.
      rewrite Htr, app_nil_r in Hwarn. unfold issued in Hwarn.
      rewrite Hcreation in Hwarn.
      pose proof (filter_nil_in _ _ _ Hnone Hwarn). discriminate.
    + exact (all_but_last_returned arc main propagating_main w _ _ _ Htr).
  - exfalso.
    assert (Hin : In (AddWarning message)
                     (script create_databases_well_permits))
      by (rewrite Hcalls; apply in_or_app; now left).
    pose proof (filter_nil_in _ _ _ Hnone Hin). discriminate.
Qed.

End Script.

(* ===================================================================== *)
(** ** The script at work *)
(* ===================================================================== *)

Example lit_example :
  lit "\tAdding fields" = String TAB "Adding fields".
Proof. reflexivity. Qed.

Example format_example :
  format "{table_name}__I1" "table_name" FC_NAME_WPS
  = "GIS.DATABASES_WELL_PERMITS__I1".
Proof. reflexivity. Qed.

Example format_int_example :
  format (lit "\t\tAdding {field_name}") "field_name" 35%Z
  = String TAB (String TAB "Adding 35").
Proof. reflexivity. Qed.

(** A specification with fewer than nine components: the message is
    logged, then the missing component raises IndexError before
    AddField_management is called. *)
Example add_fields_short_tuple :
  let r := run accepting (add_fields "T" [[PStr "name"; PStr "TEXT"]]) tt in
  issued (trace r) = [AddMessage (String TAB (String TAB "Adding name"))]
  /\ outcome r = inl IndexError.
Proof. split; reflexivity. Qed.

(** With a handler around it, a call that raises is not the end of the
    run: [propagating] fails for such a program. *)
Example handled_error_is_not_propagated :
  let p := (try_except (arcpy (AddMessage "a")) (fun _ => Ret tt) ;;
            arcpy (AddMessage "b"))%py in
  let refusing : platform unit :=
    fun c w => match c with
               | AddMessage "a" => (Raised already_exists, w)
               | _ => (Returned, w)
               end in
  ~ propagating p
  /\ trace (run refusing p tt)
     = [(AddMessage "a", Raised already_exists); (AddMessage "b", Returned)]
  /\ outcome (run refusing p tt) = inr tt.
Proof.
  repeat split.
  intros Hp. inversion Hp as [| | c k Hk _ Hc]. discriminate (Hk IndexError).
Qed.

(** Run as a program where the feature class exists already: the run ends
    at CreateFeatureclass_management with the platform's exception. *)
Example main_on_existing_feature_class :
  let r := run keeping_names (main join_backslash) [FC_NAME_WPS] in
  issued (trace r)
  = [ AddMessage
        (String LF (String LF
           "Creating feature class GIS.DATABASES_WELL_PERMITS"))
    ; CreateFeatureclass_management OUTPUT_GEODATABASE FC_NAME_WPS "POINT"
        UTM_16N_NAD83 ]
  /\ outcome r = inl already_exists.
Proof. split; reflexivity. Qed.

Lemma mssw_is_creation_function :
  In (FC_NAME_MSSW, fields_spec_mssw, create_databases_mssw join_backslash)
     (creation_functions join_backslash).
Proof. unfold creation_functions. do 6 right. left. reflexivity. Defined.

Lemma mssw_returns :
  returned (run accepting (create_databases_mssw join_backslash) tt).
Proof. exists tt. reflexivity. Defined.

Lemma creation_function_creates_adds_fields_grants_witness :
  let r := run accepting (create_databases_mssw join_backslash) tt in
  In (FC_NAME_MSSW, fields_spec_mssw, create_databases_mssw join_backslash)
     (creation_functions join_backslash)
  /\ all_returned (trace r)
  /\ returned r
  /\ filter is_ChangePrivileges (operations (trace r))
     = [ChangePrivileges_management
          (join_backslash OUTPUT_GEODATABASE FC_NAME_MSSW)
          "GIS_READ" "GRANT" "AS_IS"].
Proof.
  intros r.
  assert (Hall : all_returned (trace r)) by (repeat constructor).
  pose (thm := creation_function_creates_adds_fields_grants join_backslash
                 _ _ _ mssw_is_creation_function unit accepting tt).
  split; [exact mssw_is_creation_function |].
  split; [exact Hall |].
  split; [exact (proj1 thm Hall) |].
  exact (proj1 (proj2 (proj2 (proj2
           (proj2 (proj2 thm) (proj1 thm Hall)))))).
Defined.



(** C3, as claimed, fails: run as a program the module does not call
    create_databases_erp (nor eleven others); on a platform where every
    call returns, the run returns without a CreateFeatureclass call for
    GIS.DATABASES_ERP. *)
Lemma main_does_not_call_every_creation_function :
  ~ (forall name specs f,
        In (name, specs, f) (creation_functions join_backslash) ->
        calls_function (module_body join_backslash "__main__") f)
  /\ (let r := run accepting (module_body join_backslash "__main__") tt in
      returned r
      /\ ~ In (CreateFeatureclass_management OUTPUT_GEODATABASE FC_NAME_ERP
                 "POINT" UTM_16N_NAD83)
              (issued (trace r))).
Proof.
  assert (Herp : In (FC_NAME_ERP, fields_spec_erp,
                     create_databases_erp join_backslash)
                    (creation_functions join_backslash))
    by (unfold creation_functions; now left).
  assert (Hname : FC_NAME_ERP <> FC_NAME_WPS) by discriminate.
  split.
  - intros Hall.
    exact (not_called_by_main join_backslash _ _ _ Herp Hname
             (Hall _ _ _ Herp)).
  - split; [exists tt; reflexivity |].
    intros Hin.
    assert (Hone : filter is_CreateFeatureclass
                     (issued (trace (run accepting
                        (module_body join_backslash "__main__") tt)))
                   = [create_call FC_NAME_WPS]) by (vm_compute; reflexivity).
    apply (filter_singleton_in _ _ _ _ Hone) in Hin; [| reflexivity].
    discriminate Hin.
Qed.

Lemma main_calls_create_databases_well_permits_only_witness :
  returned (run accepting (module_body join_backslash "__main__") tt)
  /\ issued (trace (run accepting (module_body join_backslash "__main__") tt))
     = script (create_databases_well_permits join_backslash)
       ++ reminder_calls.
Proof.
  assert (Hret : returned
            (run accepting (module_body join_backslash "__main__") tt))
    by (exists tt; reflexivity).
  split; [exact Hret |].
  exact (proj1 (proj2
           (main_calls_create_databases_well_permits_only join_backslash))
           unit accepting tt Hret).
Defined.

Lemma well_permits_is_creation_function :
  In (FC_NAME_WPS, fields_spec_well_permits,
      create_databases_well_permits join_backslash)
     (creation_functions join_backslash).
Proof. unfold creation_functions. do 9 right. left. reflexivity. Defined.

Lemma api_errors_propagate_witness :
  let p := create_databases_well_permits join_backslash in
  let r := run keeping_names p [FC_NAME_WPS] in
  ((exists name specs, In (name, specs, p) (creation_functions join_backslash))
   \/ (exists table fields_spec, p = add_fields table fields_spec))
  /\ trace r
     = [(AddMessage
           (String LF (String LF
              "Creating feature class GIS.DATABASES_WELL_PERMITS")),
         Returned)]
       ++ (CreateFeatureclass_management OUTPUT_GEODATABASE FC_NAME_WPS
             "POINT" UTM_16N_NAD83,
           Raised already_exists) :: []
  /\ outcome r = inl already_exists.
Proof.
  intros p r.
  assert (Hp : (exists name specs,
                   In (name, specs, p) (creation_functions join_backslash))
               \/ (exists table fields_spec, p = add_fields table fields_spec)).
  { left. exists FC_NAME_WPS, fields_spec_well_permits.
    exact well_permits_is_creation_function. }
  assert (Htr : trace r
     = [(AddMessage
           (String LF (String LF
              "Creating feature class GIS.DATABASES_WELL_PERMITS")),
         Returned)]
       ++ (CreateFeatureclass_management OUTPUT_GEODATABASE FC_NAME_WPS
             "POINT" UTM_16N_NAD83,
           Raised already_exists) :: []) by reflexivity.
  split; [exact Hp |].
  split; [exact Htr |].
  exact (proj2 (proj2 (api_errors_propagate join_backslash p Hp)
                  (list string) keeping_names [FC_NAME_WPS] _ _ _ _ Htr)).
Defined.

Lemma feature_classes_are_points_in_one_reference_witness :
  In (FC_NAME_MSSW, fields_spec_mssw, create_databases_mssw join_backslash)
     (creation_functions join_backslash)
  /\ In (CreateFeatureclass_management
           "Database Connections\orcl$gis.sde" "GIS.DATABASES_MSSW" "POINT"
           (arcpy_SpatialReference 26916))
        (issued (trace (run accepting
                          (create_databases_mssw join_backslash) tt)))
  /\ "GIS.DATABASES_MSSW" = FC_NAME_MSSW.
Proof.
  assert (Hin : In (CreateFeatureclass_management
           "Database Connections\orcl$gis.sde" "GIS.DATABASES_MSSW" "POINT"
           (arcpy_SpatialReference 26916))
        (issued (trace (run accepting
                          (create_databases_mssw join_backslash) tt))))
    by (right; left; reflexivity).
  split; [exact mssw_is_creation_function |].
  split; [exact Hin |].
  exact (proj1 (proj2 (proj2
           (proj1 (feature_classes_are_points_in_one_reference join_backslash
                     _ _ _ mssw_is_creation_function unit accepting tt)
              _ _ _ _ Hin)))).
Defined.

Lemma indexes_of_three_feature_classes_witness :
  let r := run accepting (create_databases_reg_station join_backslash) tt in
  all_returned (trace r)
  /\ returned r
  /\ filter is_AddIndex (issued (trace r))
     = [ AddIndex_management
           (join_backslash OUTPUT_GEODATABASE FC_NAME_REG_STATION)
           "FLUWID" "GIS.DATABASES_REG_STATION__I1"
       ; AddIndex_management
           (join_backslash OUTPUT_GEODATABASE FC_NAME_REG_STATION)
           "LEGACY_PERMIT_NUMBER" "GIS.DATABASES_REG_STATION__I2" ].
Proof.
  intros r.
  assert (Hall : all_returned (trace r)) by (repeat constructor).
  pose (thm := proj1 (indexes_of_three_feature_classes join_backslash)
                 FC_NAME_REG_STATION fields_spec_reg_station
                 (create_databases_reg_station join_backslash)
                 (or_introl eq_refl) unit accepting tt).
  split; [exact Hall |].
  split; [exact (proj1 thm Hall) |].
  exact (proj2 (proj2 (proj2 thm) (proj1 thm Hall))).
Defined.

Lemma change_table_as_is_keeps_edit :
  forall in_dataset user View (privs : privilege_table) d u,
    snd (change_table in_dataset user View "AS_IS" privs d u)
    = snd (privs d u).
Proof.
  intros in_dataset user View privs d u. unfold change_table.
  destruct (String.eqb d in_dataset && String.eqb u user); reflexivity.
Defined.

Lemma change_table_other_users_keep_view :
  forall in_dataset user View Edit (privs : privilege_table) d u,
    u <> user ->
    fst (change_table in_dataset user View Edit privs d u) = fst (privs d u).
Proof.
  intros in_dataset user View Edit privs d u Hu. unfold change_table.
  destruct (String.eqb_spec u user) as [Heq | _]; [contradiction |].
  now rewrite andb_false_r.
Defined.

Lemma grants_change_view_of_GIS_READ_only_witness :
  let may_view := fun (t : privilege_table) d u => fst (t d u) in
  let may_edit := fun (t : privilege_table) d u => snd (t d u) in
  let nobody : privilege_table := fun _ _ => (false, false) in
  let calls :=
    issued (trace (run accepting (create_databases_mssw join_backslash) tt)) in
  let fc := join_backslash OUTPUT_GEODATABASE FC_NAME_MSSW in
  In (FC_NAME_MSSW, fields_spec_mssw, create_databases_mssw join_backslash)
     (creation_functions join_backslash)
  /\ may_edit (privileges_after change_table calls nobody) fc "GIS_READ"
     = false
  /\ may_view (privileges_after change_table calls nobody) fc "GIS_READ"
     = true.
Proof.
  intros may_view may_edit nobody calls fc.
  split; [exact mssw_is_creation_function |].
  split; [| reflexivity].
  exact (proj1 (proj2 (proj2
           (grants_change_view_of_GIS_READ_only join_backslash
              privilege_table change_table may_view may_edit
              change_table_as_is_keeps_edit
              change_table_other_users_keep_view
              _ _ _ mssw_is_creation_function unit accepting tt))
           nobody fc "GIS_READ")).
Defined.

Lemma emitted_calls_are_constant_witness :
  In (create_databases_mssw join_backslash)
     (module_body join_backslash "__main__"
      :: map snd (creation_functions join_backslash))
  /\ returned (run accepting (create_databases_mssw join_backslash) tt)
  /\ returned (run keeping_names (create_databases_mssw join_backslash) [])
  /\ issued (trace (run accepting (create_databases_mssw join_backslash) tt))
     = issued (trace (run keeping_names
                        (create_databases_mssw join_backslash) [])).
Proof.
  assert (Hin : In (create_databases_mssw join_backslash)
                  (module_body join_backslash "__main__"
                   :: map snd (creation_functions join_backslash)))
    by (do 7 right; left; reflexivity).
  assert (H2 : returned
            (run keeping_names (create_databases_mssw join_backslash) []))
    by (exists tt; reflexivity).
  split; [exact Hin |].
  split; [exact mssw_returns |].
  split; [exact H2 |].
  exact (proj1 (proj1 (proj2 (proj2
           (proj2 (emitted_calls_are_constant join_backslash _ Hin)
              unit (list string) accepting keeping_names tt [])))
           mssw_returns H2)).
Defined.

Lemma add_fields_indexing_in_bounds_witness :
  Forall (fun field_spec : tuple => 9 <= List.length field_spec)
    fields_spec_mssw
  /\ completion (add_fields "T" fields_spec_mssw) = inr tt.
Proof.
  assert (Hlen : Forall (fun field_spec : tuple => 9 <= List.length field_spec)
                   fields_spec_mssw)
    by (unfold fields_spec_mssw; repeat constructor).
  split; [exact Hlen |].
  exact (proj1 (proj2
           (proj1 (proj2 (proj2
                     (add_fields_indexing_in_bounds join_backslash)))
              "T" fields_spec_mssw Hlen))).
Defined.

(* ===================================================================== *)
(** ** The further properties at work *)
(* ===================================================================== *)

(** Finds a member of a list given in full. *)
Ltac member := repeat first [left; reflexivity | right].

Lemma mssw_fields_have_at_least_nine_components :
  Forall (fun field_spec : tuple => 9 <= List.length field_spec)
    fields_spec_mssw.
Proof. unfold fields_spec_mssw. repeat constructor. Defined.

Lemma add_fields_short_specification_witness :
  Forall (fun field_spec : tuple => 9 <= List.length field_spec)
    fields_spec_mssw
  /\ List.length [PStr "name"; PStr "TEXT"] < 9
  /\ completion
       (add_fields "T" (fields_spec_mssw ++ [PStr "name"; PStr "TEXT"] :: []))
     = inl IndexError.
Proof.
  assert (Hshort : List.length [PStr "name"; PStr "TEXT"] < 9)
    by (simpl; lia).
  split; [exact mssw_fields_have_at_least_nine_components |].
  split; [exact Hshort |].
  exact (proj1 (proj2
           (add_fields_short_specification "T" fields_spec_mssw
              [PStr "name"; PStr "TEXT"] []
              mssw_fields_have_at_least_nine_components Hshort))).
Defined.

Lemma add_fields_ignores_further_components_witness :
  let longer : list tuple :=
    [tuple9 "name" "TEXT" "" "" 35%Z "" true "" "" ++ [PStr "tenth"]] in
  Forall (fun field_spec : tuple => 9 <= List.length field_spec) longer
  /\ add_fields "T" (map (firstn 9) longer) = add_fields "T" longer.
Proof.
  intros longer.
  assert (Hlen : Forall (fun field_spec : tuple => 9 <= List.length field_spec)
                   longer)
    by (unfold longer; repeat constructor).
  split; [exact Hlen |].
  exact (proj1 (add_fields_ignores_further_components "T" longer Hlen)).
Defined.

Lemma add_fields_adds_an_initial_part_witness :
  Forall (fun field_spec : tuple => 9 <= List.length field_spec)
    fields_spec_mssw
  /\ exists n,
       n <= List.length fields_spec_mssw
       /\ operations (trace (run accepting (add_fields "T" fields_spec_mssw) tt))
          = map (AddField_call "T") (firstn n fields_spec_mssw).
Proof.
  split; [exact mssw_fields_have_at_least_nine_components |].
  exact (add_fields_adds_an_initial_part "T" fields_spec_mssw
           mssw_fields_have_at_least_nine_components unit accepting tt).
Defined.

Lemma add_fields_logs_field_names_witness :
  let specs : list tuple :=
    [ tuple9 "first" "TEXT" "" "" 35%Z "" true "" ""
    ; tuple9 "second" "DATE" "" "" "" "" true "" "" ] in
  Forall2 (fun (field_spec : tuple) name =>
             9 <= List.length field_spec
             /\ nth_error field_spec 0 = Some (PStr name))
          specs ["first"; "second"]
  /\ returned (run accepting (add_fields "T" specs) tt)
  /\ filter (fun c => negb (is_geodatabase_operation c))
       (issued (trace (run accepting (add_fields "T" specs) tt)))
     = [ AddMessage (String TAB (String TAB "Adding first"))
       ; AddMessage (String TAB (String TAB "Adding second")) ].
Proof.
  intros specs.
  assert (Hnames : Forall2 (fun (field_spec : tuple) name =>
                              9 <= List.length field_spec
                              /\ nth_error field_spec 0 = Some (PStr name))
                     specs ["first"; "second"])
    by (unfold specs; repeat constructor).
  assert (Hret : returned (run accepting (add_fields "T" specs) tt))
    by (exists tt; reflexivity).
  split; [exact Hnames |].
  split; [exact Hret |].
  exact (add_fields_logs_field_names "T" specs ["first"; "second"] Hnames
           unit accepting tt Hret).
Defined.

Lemma creation_function_works_on_its_feature_class_witness :
  let grant :=
    ChangePrivileges_management
      (join_backslash OUTPUT_GEODATABASE FC_NAME_MSSW)
      "GIS_READ" "GRANT" "AS_IS" in
  In (FC_NAME_MSSW, fields_spec_mssw, create_databases_mssw join_backslash)
     (creation_functions join_backslash)
  /\ In grant
        (issued (trace (run accepting
                          (create_databases_mssw join_backslash) tt)))
  /\ is_geodatabase_operation grant = true
  /\ (grant = CreateFeatureclass_management OUTPUT_GEODATABASE FC_NAME_MSSW
                "POINT" UTM_16N_NAD83
      \/ target grant = Some (join_backslash OUTPUT_GEODATABASE FC_NAME_MSSW)).
Proof.
  intros grant.
  assert (Hin : In grant
                  (issued (trace (run accepting
                                    (create_databases_mssw join_backslash) tt))))
    by (unfold grant; member).
  split; [exact mssw_is_creation_function |].
  split; [exact Hin |].
  split; [reflexivity |].
  exact (creation_function_works_on_its_feature_class join_backslash
           _ _ _ mssw_is_creation_function unit accepting tt grant Hin
           eq_refl).
Defined.

Lemma reg_station_is_creation_function :
  In (FC_NAME_REG_STATION, fields_spec_reg_station,
      create_databases_reg_station join_backslash)
     (creation_functions join_backslash).
Proof. unfold creation_functions. do 7 right. left. reflexivity. Defined.

Lemma indexed_columns_are_declared_witness :
  let index :=
    AddIndex_management
      (join_backslash OUTPUT_GEODATABASE FC_NAME_REG_STATION)
      "FLUWID" "GIS.DATABASES_REG_STATION__I1" in
  In (FC_NAME_REG_STATION, fields_spec_reg_station,
      create_databases_reg_station join_backslash)
     (creation_functions join_backslash)
  /\ In index
        (issued (trace (run accepting
                          (create_databases_reg_station join_backslash) tt)))
  /\ exists field_spec,
       In field_spec fields_spec_reg_station
       /\ upper (column_name field_spec) = "FLUWID".
Proof.
  intros index.
  assert (Hin : In index
                  (issued (trace (run accepting
                     (create_databases_reg_station join_backslash) tt))))
    by (unfold index; member).
  split; [exact reg_station_is_creation_function |].
  split; [exact Hin |].
  exact (indexed_columns_are_declared join_backslash
           _ _ _ reg_station_is_creation_function unit accepting tt
           _ _ _ Hin).
Defined.

Lemma failed_creation_ends_the_function_witness :
  let r :=
    run keeping_names (create_databases_well_permits join_backslash)
      [FC_NAME_WPS] in
  In (FC_NAME_WPS, fields_spec_well_permits,
      create_databases_well_permits join_backslash)
     (creation_functions join_backslash)
  /\ In (CreateFeatureclass_management OUTPUT_GEODATABASE FC_NAME_WPS "POINT"
           UTM_16N_NAD83, Raised already_exists)
        (trace r)
  /\ operations (trace r)
     = [CreateFeatureclass_management OUTPUT_GEODATABASE FC_NAME_WPS "POINT"
          UTM_16N_NAD83]
  /\ outcome r = inl already_exists.
Proof.
  intros r.
  assert (Hev : In (CreateFeatureclass_management OUTPUT_GEODATABASE
                      FC_NAME_WPS "POINT" UTM_16N_NAD83,
                    Raised already_exists)
                   (trace r))
    by (right; left; reflexivity).
  split; [exact well_permits_is_creation_function |].
  split; [exact Hev |].
  exact (failed_creation_ends_the_function join_backslash
           _ _ _ well_permits_is_creation_function (list string)
           keeping_names [FC_NAME_WPS] already_exists Hev).
Defined.

Lemma grant_comes_after_everything_else_witness :
  let grant :=
    ChangePrivileges_management
      (join_backslash OUTPUT_GEODATABASE FC_NAME_MSSW)
      "GIS_READ" "GRANT" "AS_IS" in
  let r := run accepting (create_databases_mssw join_backslash) tt in
  In (FC_NAME_MSSW, fields_spec_mssw, create_databases_mssw join_backslash)
     (creation_functions join_backslash)
  /\ In grant (issued (trace r))
  /\ issued (trace r) = script (create_databases_mssw join_backslash).
Proof.
  intros grant r.
  assert (Hin : In grant (issued (trace r))) by (unfold grant; member).
  split; [exact mssw_is_creation_function |].
  split; [exact Hin |].
  exact (proj1 (grant_comes_after_everything_else join_backslash
                  _ _ _ mssw_is_creation_function unit accepting tt Hin)).
Defined.

Lemma reminder_follows_complete_creation_witness :
  let r := run accepting (module_body join_backslash "__main__") tt in
  In (AddWarning "          for new feature classes") (issued (trace r))
  /\ exists creation tail,
       trace r = creation ++ tail
       /\ issued creation
          = script (create_databases_well_permits join_backslash)
       /\ all_returned creation.
Proof.
  intros r.
  assert (Hin : In (AddWarning "          for new feature classes")
                   (issued (trace r))) by member.
  split; [exact Hin |].
  exact (reminder_follows_complete_creation join_backslash unit accepting tt
           _ Hin).
Defined.
